(** * Ultrasonic theremin: sensor filter, distance-to-pitch mapping, tone synthesis

    A shallow embedding of [rpi/sensors.py], [server/audio_engine.py],
    [server/server.py] and the mock generator of [test_server.py], followed
    by the properties of these programs.

    Number model.  Python floats are embedded as exact rationals ([Q]); every
    finite binary64 value is a rational, and [+ - * /] are the exact
    operations, without rounding.  Equality of computed values is therefore
    [Qeq] ([==]).  Audio samples contain [sin] and live in [R]; the sample
    counts are computed over [Q] and [Z] and evaluate.  The literals [inf] and
    [nan] have no counterpart in the model.  The values the scenarios name
    are evaluated a second time in binary64 ([Binary64]).  The number of
    samples of a buffer is [int] of a product of floats, and truncation
    sees the rounding of that product: [Binary64.generate_tone_b64] and
    [Binary64.generate_silence_b64] take the duration as a binary64 number
    and count the samples from the binary64 product. *)

From Stdlib Require Import ZArith QArith Qround Qabs Qreals Reals Psatz.
From Stdlib Require Import List String Ascii Bool.
From Stdlib Require Floats.
Import ListNotations.

Set Warnings "-inexact-float".

Local Open Scope Q_scope.

(** ** Python run-time notions shared by the three programs *)

Module Py.

(** Exceptions derived from [Exception]; these are the ones an
    [except Exception] clause catches. *)
Inductive exn : Type :=
| ValueError
| TypeError
| IOError
| UnicodeDecodeError
| RuntimeError
| OverflowError.

(** Outcome of an expression that may raise. *)
Inductive result (A : Type) : Type :=
| Ok (a : A)
| Raise (e : exn).
Arguments Ok {A} a.
Arguments Raise {A} e.

Definition bind {A B : Type} (r : result A) (k : A -> result B) : result B :=
  match r with
  | Ok a => k a
  | Raise e => Raise e
  end.

(** [int(x)] on a float: truncation toward zero. *)
Definition int (x : Q) : Z := Z.quot (Qnum x) (Zpos (Qden x)).

(** [round(x)]: nearest integer, ties to the even one. *)
Definition round (x : Q) : Z :=
  let f := Qfloor x in
  match Qcompare (x - inject_Z f) (1 # 2) with
  | Lt => f
  | Gt => (f + 1)%Z
  | Eq => if Z.even f then f else (f + 1)%Z
  end.

(** [sum(xs)] on numbers. *)
Definition sum (xs : list Q) : Q := fold_left Qplus xs 0.

(** [len(xs)] as a number. *)
Definition len {A : Type} (xs : list A) : Q := inject_Z (Z.of_nat (List.length xs)).

(** [str(e)] of an exception, as it appears in a log line. *)
Definition exn_str (e : exn) : string :=
  match e with
  | ValueError => "ValueError"
  | TypeError => "TypeError"
  | IOError => "IOError"
  | UnicodeDecodeError => "UnicodeDecodeError"
  | RuntimeError => "RuntimeError"
  | OverflowError => "OverflowError"
  end.

End Py.

Import Py.

Notation "x <- r ;; k" := (Py.bind r (fun x => k))
  (at level 61, r at next level, right associativity).

(** ** rpi/sensors.py *)

Module Sensors.

Definition FILTER_WINDOW_SIZE : nat := 5.

(** [collections.deque(maxlen=...)], left end first.  [append] adds on the
    right and, when the bound is exceeded, drops the leftmost element. *)
Definition deque_append (maxlen : nat) (d : list Q) (x : Q) : list Q :=
  let d' := d ++ [x] in
  if (maxlen <? List.length d')%nat then tl d' else d'.

(** [distance_buffer = deque(maxlen=FILTER_WINDOW_SIZE)] *)
Definition distance_buffer_init : list Q := [].

(** [get_filtered_distance()].  [read] is the outcome of
    [grovepi.ultrasonicRead(ULTRASONIC_PORT)]; the module-level
    [distance_buffer] is threaded through.  [None] is Python's [None]. *)
Definition get_filtered_distance (read : result Q) (distance_buffer : list Q)
  : list Q * option Q :=
  match read with
  | Raise e => (distance_buffer, None)
  | Ok raw_distance =>
      let distance_buffer := deque_append FILTER_WINDOW_SIZE distance_buffer raw_distance in
      if (0 <? List.length distance_buffer)%nat then
        let filtered_distance := Py.sum distance_buffer / Py.len distance_buffer in
        (distance_buffer, Some filtered_distance)
      else
        (distance_buffer, Some raw_distance)
  end.

(** [get_volume()].  [read] is the outcome of
    [grovepi.analogRead(POTENTIOMETER_PORT)], an integer. *)
Definition get_volume (read : result Z) : option Q :=
  match read with
  | Raise e => None
  | Ok pot_value =>
      let volume := inject_Z pot_value / 1023 in
      Some volume
  end.

(** The sensing loop of [main], as far as the filter is concerned: the
    values [get_filtered_distance] returns on successive reads. *)
Fixpoint filtered_outputs (reads : list (result Q)) (distance_buffer : list Q)
  : list (option Q) :=
  match reads with
  | [] => []
  | read :: rest =>
      let '(distance_buffer, out) := get_filtered_distance read distance_buffer in
      out :: filtered_outputs rest distance_buffer
  end.

(** [mqtt_client.publish(topic, str(value))]; the payload is the decimal
    string of [value]. *)
Inductive publication : Type :=
| Publish (topic : string) (value : Q).

(** One pass through the body of the loop of [main]: both sensors are read,
    and the two readings are published when neither is [None]. *)
Definition main_iteration (read_distance : result Q) (read_volume : result Z)
           (distance_buffer : list Q) : list Q * list publication :=
  let '(distance_buffer, distance) := get_filtered_distance read_distance distance_buffer in
  let volume := get_volume read_volume in
  match distance, volume with
  | Some distance, Some volume =>
      (distance_buffer,
       [Publish "sensors/distance" distance; Publish "sensors/volume" volume])
  | _, _ => (distance_buffer, [])
  end.

(** The loop of [main] over the outcomes of successive pairs of reads: what
    each pass publishes. *)
Fixpoint main_loop (reads : list (result Q * result Z)) (distance_buffer : list Q)
  : list (list publication) :=
  match reads with
  | [] => []
  | (read_distance, read_volume) :: rest =>
      let '(distance_buffer, published) :=
        main_iteration read_distance read_volume distance_buffer in
      published :: main_loop rest distance_buffer
  end.

End Sensors.

(** ** server/audio_engine.py *)

Module AudioEngine.

Definition SAMPLE_RATE : Q := 44100.
Definition CHUNK_DURATION : Q := 0.05.
Definition CHUNK_SIZE : Z := Py.int (SAMPLE_RATE * CHUNK_DURATION).

(** Pairs (frequency multiplier, amplitude). *)
Definition HARMONIC_RATIOS : list (Q * Q) :=
  [ (1, 1);
    (2, 0.80);
    (3, 1.75);
    (4, 0.25);
    (5, 0.18) ].

(** The module's global state. *)
Record globals : Type := mkGlobals {
  current_frequency : Q;
  current_volume : Q;
  is_playing : bool
}.

Definition globals_init : globals :=
  {| current_frequency := 440; current_volume := 0.5; is_playing := false |}.

(** [np.linspace(0, stop, num, endpoint=False)]: [num] points
    [0, step, 2*step, ...] with [step = stop / num]; a negative [num] is
    a [ValueError]. *)
Definition linspace0 (stop : Q) (num : Z) : result (list Q) :=
  if (num <? 0)%Z then Raise ValueError
  else
    let step := stop / inject_Z num in
    Ok (map (fun i => inject_Z (Z.of_nat i) * step) (seq 0 (Z.to_nat num))).

(** [np.zeros(n)]; a negative [n] is a [ValueError]. *)
Definition zeros (n : Z) : result (list R) :=
  if (n <? 0)%Z then Raise ValueError else Ok (repeat 0%R (Z.to_nat n)).

(** [np.zeros_like(t)] *)
Definition zeros_like {A : Type} (t : list A) : list R := map (fun _ => 0%R) t.

(** Element-wise [a + b] on arrays of one shape. *)
Fixpoint vadd (a b : list R) : list R :=
  match a, b with
  | x :: a', y :: b' => (x + y)%R :: vadd a' b'
  | _, _ => []
  end.

(** Body of the loop of [generate_tone] for one harmonic. *)
Definition add_harmonic (frequency : Q) (t : list Q) (waveform : list R)
           (h : Q * Q) : list R :=
  let '(harmonic_mult, amplitude_mult) := h in
  let harmonic_freq := frequency * harmonic_mult in
  let harmonic_wave :=
    map (fun ti => (Q2R amplitude_mult * sin (2 * PI * Q2R harmonic_freq * Q2R ti))%R) t in
  vadd waveform harmonic_wave.

(** [generate_tone(frequency, volume, duration)].  The final
    [astype(np.float32)] changes the storage format only. *)
Definition generate_tone (frequency volume duration : Q) : result (list R) :=
  t <- linspace0 duration (Py.int (SAMPLE_RATE * duration)) ;;
  let waveform := zeros_like t in
  let waveform := fold_left (add_harmonic frequency t) HARMONIC_RATIOS waveform in
  let max_amplitude := Py.sum (map snd HARMONIC_RATIOS) in
  let waveform := map (fun x => (x / Q2R max_amplitude)%R) waveform in
  let waveform := map (fun x => (x * Q2R volume)%R) waveform in
  Ok waveform.

(** [generate_silence(duration)] *)
Definition generate_silence (duration : Q) : result (list R) :=
  let num_samples := Py.int (SAMPLE_RATE * duration) in
  zeros num_samples.

(** [outdata[:] = chunk.reshape(-1, 1)] for an [outdata] of shape
    [(len(outdata), 1)]: the column is copied when the lengths agree, a
    single row is broadcast, anything else is a [ValueError]. *)
Definition assign_column (outdata chunk : list R) : result (list R) :=
  if (List.length chunk =? List.length outdata)%nat then Ok chunk
  else match chunk with
       | [x] => Ok (repeat x (List.length outdata))
       | _ => Raise ValueError
       end.

Section Callback.

(** [audio_callback] looks [generate_tone] and [generate_silence] up in
    the module namespace when it runs; they are the parameters here. *)
Variable gen_tone : Q -> Q -> Q -> result (list R).
Variable gen_silence : Q -> result (list R).

(** The [try] block of [audio_callback]. *)
Definition audio_callback_try (g : globals) (outdata : list R) : result (list R) :=
  chunk <- (if is_playing g && negb (Qle_bool (current_frequency g) 0)
            then gen_tone (current_frequency g) (current_volume g) CHUNK_DURATION
            else gen_silence CHUNK_DURATION) ;;
  assign_column outdata chunk.

(** [audio_callback(outdata, frames, time_info, status)]: the new contents
    of [outdata] and the lines printed, or the exception that leaves the
    callback. *)
Definition audio_callback_with (g : globals) (outdata : list R) (frames : Z)
           (status : bool) : result (list R * list string) :=
  let printed := if status then ["Audio callback status"%string] else [] in
  match audio_callback_try g outdata with
  | Ok outdata' => Ok (outdata', printed)
  | Raise e =>
      z <- zeros frames ;;
      outdata' <- assign_column outdata z ;;
      Ok (outdata', printed ++ [("Error in audio callback: " ++ exn_str e)%string])
  end.

End Callback.

Definition audio_callback : globals -> list R -> Z -> bool -> result (list R * list string) :=
  audio_callback_with generate_tone generate_silence.

(** [update_audio_params(frequency, volume, playing)] *)
Definition update_audio_params (frequency volume : Q) (playing : bool) (g : globals)
  : globals :=
  {| current_frequency := frequency; current_volume := volume; is_playing := playing |}.

(** [a[::step]] for a positive [step]: the elements at positions
    [0, step, 2*step, ...]; [skip] counts down to the next one kept. *)
Fixpoint take_every {A : Type} (step skip : nat) (a : list A) : list A :=
  match a with
  | [] => []
  | x :: rest =>
      match skip with
      | O => x :: take_every step (step - 1) rest
      | S k => take_every step k rest
      end
  end.

(** [get_current_waveform()] *)
Definition get_current_waveform (g : globals) : result (list R) :=
  if is_playing g && negb (Qle_bool (current_frequency g) 0) then
    let sample_duration := 0.02 in
    waveform <- generate_tone (current_frequency g) (current_volume g) sample_duration ;;
    let downsampled := take_every 20 0 waveform in
    Ok downsampled
  else
    Ok (repeat 0%R 50).

(** The part of [generate_tone] that follows the time array [t]: the loop
    over the harmonics, the normalisation and the volume. *)
Definition tone_on (frequency volume : Q) (t : list Q) : list R :=
  let waveform := zeros_like t in
  let waveform := fold_left (add_harmonic frequency t) HARMONIC_RATIOS waveform in
  let max_amplitude := Py.sum (map snd HARMONIC_RATIOS) in
  let waveform := map (fun x => (x / Q2R max_amplitude)%R) waveform in
  let waveform := map (fun x => (x * Q2R volume)%R) waveform in
  waveform.

End AudioEngine.

(** ** server/server.py *)

Module Server.

Definition DISTANCE_MIN : Q := 2.
Definition DISTANCE_MAX : Q := 25.
Definition BUFFER_MIN : Q := 0.
Definition BUFFER_MAX : Q := 27.

Definition FREQ_MIN : Q := 256.
Definition FREQ_MAX : Q := 1024.

(** The module's global variables. *)
Record globals : Type := mkGlobals {
  current_distance : Q;
  current_volume : Q;
  current_frequency : Q;
  is_playing : bool
}.

Definition globals_init : globals :=
  {| current_distance := 0; current_volume := 0.5;
     current_frequency := 0; is_playing := false |}.

(** An MQTT message: [msg.topic] and [msg.payload]. *)
Record message : Type := mkMessage {
  topic : string;
  payload : string
}.

(** What the server sends to the browsers and prints. *)
Inductive output : Type :=
| Emit_audio_state (frequency volume distance : Q) (playing : bool)
| Emit_sensor_update (distance volume timestamp : Q)
| Print_playing (frequency volume distance : Q)
| Print_silent (distance : Q)
| Print_status (text : string)
| Print_connected
| Print_error (e : exn).

(** Everything [on_message] can touch: its own globals, the globals of
    [audio_engine], and the outputs so far (oldest first). *)
Record world : Type := mkWorld {
  srv : globals;
  audio : AudioEngine.globals;
  out : list output
}.

Definition world_init : world :=
  {| srv := globals_init; audio := AudioEngine.globals_init; out := [] |}.

(** Statements: they change the world and end normally or by raising.
    Assignments made before a [raise] stay in the world. *)
Definition M (A : Type) : Type := world -> result A * world.

Definition ret {A : Type} (a : A) : M A := fun w => (Ok a, w).

Definition mbind {A B : Type} (m : M A) (k : A -> M B) : M B :=
  fun w => match m w with
           | (Ok a, w') => k a w'
           | (Raise e, w') => (Raise e, w')
           end.

Definition eval {A : Type} (r : result A) : M A := fun w => (r, w).

Definition read {A : Type} (f : globals -> A) : M A := fun w => (Ok (f (srv w)), w).

Definition assign (f : globals -> globals) : M unit :=
  fun w => (Ok tt, {| srv := f (srv w); audio := audio w; out := out w |}).

Definition emit (o : output) : M unit :=
  fun w => (Ok tt, {| srv := srv w; audio := audio w; out := out w ++ [o] |}).

(** [try: body except Exception as e: handler(e)] *)
Definition try_except {A : Type} (body : M A) (handler : exn -> M A) : M A :=
  fun w => match body w with
           | (Ok a, w') => (Ok a, w')
           | (Raise e, w') => handler e w'
           end.

Notation "x <-- m ;;; k" := (mbind m (fun x => k))
  (at level 61, m at next level, right associativity).
Notation "m1 ;;; m2" := (mbind m1 (fun _ => m2))
  (at level 61, right associativity).

Definition set_current_distance (v : Q) : M unit :=
  assign (fun g => {| current_distance := v; current_volume := current_volume g;
                      current_frequency := current_frequency g;
                      is_playing := is_playing g |}).

Definition set_current_volume (v : Q) : M unit :=
  assign (fun g => {| current_distance := current_distance g; current_volume := v;
                      current_frequency := current_frequency g;
                      is_playing := is_playing g |}).

Definition set_current_frequency (v : Q) : M unit :=
  assign (fun g => {| current_distance := current_distance g;
                      current_volume := current_volume g;
                      current_frequency := v; is_playing := is_playing g |}).

Definition set_is_playing (b : bool) : M unit :=
  assign (fun g => {| current_distance := current_distance g;
                      current_volume := current_volume g;
                      current_frequency := current_frequency g; is_playing := b |}).

(** [normalized = (current_distance - DISTANCE_MIN) / (DISTANCE_MAX - DISTANCE_MIN)] *)
Definition normalized_of (current_distance : Q) : Q :=
  (current_distance - DISTANCE_MIN) / (DISTANCE_MAX - DISTANCE_MIN).

(** [current_frequency = FREQ_MIN + (FREQ_MAX - FREQ_MIN) * (1 - normalized)] *)
Definition frequency_of (normalized : Q) : Q :=
  FREQ_MIN + (FREQ_MAX - FREQ_MIN) * (1 - normalized).

(** [broadcast_state()] *)
Definition broadcast_state : M unit :=
  frequency <-- read current_frequency ;;;
  volume <-- read current_volume ;;;
  distance <-- read current_distance ;;;
  playing <-- read is_playing ;;;
  emit (Emit_audio_state frequency volume distance playing).

(** [broadcast_sensor_update()]; [now] is the value of [time.time()]. *)
Definition broadcast_sensor_update (now : Q) : M unit :=
  distance <-- read current_distance ;;;
  volume <-- read current_volume ;;;
  emit (Emit_sensor_update distance volume now).

(** [audio_engine.update_audio_params(current_frequency, current_volume, is_playing)] *)
Definition update_audio_engine : M unit :=
  fun w =>
    (Ok tt,
     {| srv := srv w;
        audio := AudioEngine.update_audio_params
                   (current_frequency (srv w)) (current_volume (srv w))
                   (is_playing (srv w)) (audio w);
        out := out w |}).

(** What happens to the server, one thing at a time: an MQTT message
    arrives, the background task broadcasts the sensor readings at time
    [now], or a browser connects.  ([background_broadcast] also emits the
    waveform, which carries no distance and is left out.) *)
Inductive event : Type :=
| Message (msg : message)
| Tick (now : Q)
| Connect.

Section Handler.

(** [float(msg.payload.decode())]: the number a payload denotes, or the
    exception that decoding or parsing raises. *)
Variable py_float : string -> result Q.

(** The [try] block of [on_message]. *)
Definition on_message_try (msg : message) : M unit :=
  let topic := topic msg in
  value <-- eval (py_float (payload msg)) ;;;
  (if (topic =? "sensors/distance")%string then
     set_current_distance value ;;;
     d <-- read current_distance ;;;
     (if Qle_bool DISTANCE_MIN d && Qle_bool d DISTANCE_MAX then
        d <-- read current_distance ;;;
        let normalized := normalized_of d in
        set_current_frequency (frequency_of normalized) ;;;
        set_is_playing true
      else if Qle_bool DISTANCE_MAX d && Qle_bool d BUFFER_MAX then
        set_current_distance 25 ;;;
        d <-- read current_distance ;;;
        let normalized := normalized_of d in
        set_current_frequency (frequency_of normalized) ;;;
        set_is_playing true
      else if Qle_bool BUFFER_MIN d && Qle_bool d DISTANCE_MIN then
        set_current_distance 2 ;;;
        d <-- read current_distance ;;;
        let normalized := normalized_of d in
        set_current_frequency (frequency_of normalized) ;;;
        set_is_playing true
      else
        set_current_frequency 0 ;;;
        set_is_playing false) ;;;
     playing <-- read is_playing ;;;
     f <-- read current_frequency ;;;
     v <-- read current_volume ;;;
     d <-- read current_distance ;;;
     (if playing then emit (Print_playing f v d) else emit (Print_silent d))
   else if (topic =? "sensors/volume")%string then
     set_current_volume value
   else if (topic =? "control/status")%string then
     emit (Print_status (payload msg))
   else
     ret tt) ;;;
  broadcast_state ;;;
  update_audio_engine.

(** [on_message(client, userdata, msg)] *)
Definition on_message (msg : message) : M unit :=
  try_except (on_message_try msg) (fun e => emit (Print_error e)).

(** [handle_connect()] *)
Definition handle_connect : M unit :=
  emit Print_connected ;;;
  broadcast_state.

(** One thing happening to the server. *)
Definition step (ev : event) (w : world) : world :=
  match ev with
  | Message msg => snd (on_message msg w)
  | Tick now => snd (broadcast_sensor_update now w)
  | Connect => snd (handle_connect w)
  end.

Fixpoint run (evs : list event) (w : world) : world :=
  match evs with
  | [] => w
  | ev :: rest => run rest (step ev w)
  end.

End Handler.

End Server.

(** ** test_server.py *)

Module TestServer.

Local Open Scope R_scope.

(** What one pass of [generate_mock_data] sends: the fields of its
    [audio_state] (its [sensor_update] repeats [distance] and [volume]). *)
Record mock_state : Type := mkMock {
  frequency : R;
  volume : R;
  distance : R;
  playing : bool
}.

(** The mapping inside the loop of [generate_mock_data], with its own
    [DISTANCE_MIN = 2], [DISTANCE_MAX = 25], [FREQ_MIN = 256] and
    [FREQ_MAX = 1024]. *)
Definition mock_mapping (distance : R) : R * bool :=
  if Rle_dec 2 distance then
    if Rle_dec distance 25 then
      let normalized := (distance - 2) / (25 - 2) in
      let frequency := 256 + (1024 - 256) * (1 - normalized) in
      (frequency, true)
    else (0, false)
  else (0, false).

(** One pass through the loop of [generate_mock_data]: the new [mock_time]
    and what is sent. *)
Definition generate_mock_data_iteration (mock_time : R) : R * mock_state :=
  let mock_time := mock_time + 0.05 in
  let distance := 15 + 12 * sin (mock_time * 3.0) in
  let volume := 0.5 + 0.5 * Rabs (sin (mock_time * 2.0)) in
  let '(frequency, is_playing) := mock_mapping distance in
  (mock_time,
   {| frequency := frequency; volume := volume; distance := distance;
      playing := is_playing |}).

End TestServer.

(** ** A parser for plain decimal payloads

    [float] accepts more than this (exponents, surrounding blanks); the
    function below reads the literals [sensors.py] publishes for in-range
    values, an optional sign, digits, and an optional fraction, and raises
    [ValueError] on anything else.  It instantiates the parser of
    [Server.on_message] on concrete payloads. *)

Module Decimal.

Definition digit_of (c : ascii) : option Z :=
  let n := Z.of_nat (nat_of_ascii c) in
  if ((48 <=? n) && (n <=? 57))%Z then Some (n - 48)%Z else None.

(** Value and number of digits of a digit string. *)
Fixpoint digits (s : string) (acc : Z) (count : nat) : option (Z * nat) :=
  match s with
  | EmptyString => Some (acc, count)
  | String c rest =>
      match digit_of c with
      | Some v => digits rest (10 * acc + v)%Z (S count)
      | None => None
      end
  end.

(** Splits at the first ['.']. *)
Fixpoint split_point (s : string) : string * option string :=
  match s with
  | EmptyString => (EmptyString, None)
  | String c rest =>
      if Ascii.eqb c "."%char then (EmptyString, Some rest)
      else let '(a, b) := split_point rest in (String c a, b)
  end.

Definition unsigned (s : string) : result Q :=
  let '(ip, fp) := split_point s in
  match digits ip 0 0, fp with
  | Some (i, S _), None => Ok (inject_Z i)
  | Some (i, ni), Some f =>
      match digits f 0 0 with
      | Some (fv, nf) =>
          if ((ni + nf =? 0)%nat) then Raise ValueError
          else Ok (inject_Z i + inject_Z fv / inject_Z (10 ^ Z.of_nat nf))
      | None => Raise ValueError
      end
  | _, _ => Raise ValueError
  end.

Definition float (s : string) : result Q :=
  match s with
  | String "-"%char rest => v <- unsigned rest ;; Ok (- v)
  | String "+"%char rest => unsigned rest
  | _ => unsigned s
  end.

End Decimal.

(** ** The scalar arithmetic in binary64

    The expressions of the three programs that the scenarios evaluate,
    on IEEE 754 binary64, Python's [float].  Integer operands are exact in
    binary64, so [25 - 2] and [1024 - 256] are the integers they look like. *)

Module Binary64.

Import PrimFloat.
Local Open Scope float_scope.

(** [normalized = (current_distance - DISTANCE_MIN) / (DISTANCE_MAX - DISTANCE_MIN)] *)
Definition normalized_b64 (current_distance : float) : float :=
  (current_distance - 2) / (25 - 2).

(** [current_frequency = FREQ_MIN + (FREQ_MAX - FREQ_MIN) * (1 - normalized)] *)
Definition frequency_b64 (normalized : float) : float :=
  256 + (1024 - 256) * (1 - normalized).

(** [volume = pot_value / 1023.0] *)
Definition volume_b64 (pot_value : float) : float := pot_value / 1023.

(** [SAMPLE_RATE * duration], the argument of [int]. *)
Definition sample_product_b64 (duration : float) : float := 44100 * duration.

(** [sum(distance_buffer) / float(len(distance_buffer))]; [n] is the length. *)
Definition filtered_b64 (distance_buffer : list float) (n : float) : float :=
  fold_left add distance_buffer 0 / n.

(** The rational number a finite binary64 number is: sign, mantissa and
    exponent read off its IEEE 754 decomposition (0 stands in for nan and
    the infinities, which denote no number). *)
Definition value_b64 (x : float) : Q :=
  match FloatOps.Prim2SF x with
  | SpecFloat.S754_finite s m e =>
      ((if s then inject_Z (Z.neg m) else inject_Z (Z.pos m)) * 2 ^ e)%Q
  | _ => 0%Q
  end.

Definition finite_b64 (x : float) : bool :=
  match FloatOps.Prim2SF x with
  | SpecFloat.S754_zero _ | SpecFloat.S754_finite _ _ _ => true
  | _ => false
  end.

(** [int(x)] on a float: the value truncated toward zero; [ValueError] on
    nan and [OverflowError] on an infinity. *)
Definition int_b64 (x : float) : result Z :=
  match FloatOps.Prim2SF x with
  | SpecFloat.S754_nan => Raise ValueError
  | SpecFloat.S754_infinity _ => Raise OverflowError
  | _ => Ok (Py.int (value_b64 x))
  end.

(** [round(x)] on a finite float. *)
Definition round_b64 (x : float) : Z := Py.round (value_b64 x).

(** [generate_tone(frequency, volume, duration)] with [duration] a binary64
    number: [int(SAMPLE_RATE * duration)] truncates the binary64 product;
    the time array and the samples are those of [AudioEngine.generate_tone]. *)
Definition generate_tone_b64 (frequency volume : Q) (duration : float)
  : result (list R) :=
  num <- int_b64 (sample_product_b64 duration) ;;
  t <- AudioEngine.linspace0 (value_b64 duration) num ;;
  Ok (AudioEngine.tone_on frequency volume t).

(** [generate_silence(duration)] with [duration] a binary64 number. *)
Definition generate_silence_b64 (duration : float) : result (list R) :=
  num_samples <- int_b64 (sample_product_b64 duration) ;;
  AudioEngine.zeros num_samples.

End Binary64.

(** ** Specification notions *)

(** The last [n] elements of a list (all of it when it is shorter). *)
Definition lastn {A : Type} (n : nat) (l : list A) : list A :=
  skipn (List.length l - n) l.

(** Arithmetic mean. *)
Definition mean (xs : list Q) : Q :=
  fold_right Qplus 0 xs / inject_Z (Z.of_nat (List.length xs)).

(** Every sample of [w] has absolute value at most [B]. *)
Definition within (B : R) (w : list R) : Prop := Forall (fun x => (Rabs x <= B)%R) w.

(** The world [on_message] leaves when a payload arrives on
    [sensors/distance]. *)
Definition on_distance (py_float : string -> result Q) (p : string) (w : Server.world)
  : Server.world :=
  snd (Server.on_message py_float
         {| Server.topic := "sensors/distance"; Server.payload := p |} w).

(** The world after a distance event that ends with [dist], [freq] and
    [playing] in the globals: the audio engine has the same parameters, one
    line was printed and one [audio_state] was sent. *)
Definition after_distance (w : Server.world) (dist freq : Q) (playing : bool)
  : Server.world :=
  let volume := Server.current_volume (Server.srv w) in
  {| Server.srv := {| Server.current_distance := dist;
                      Server.current_volume := volume;
                      Server.current_frequency := freq;
                      Server.is_playing := playing |};
     Server.audio := {| AudioEngine.current_frequency := freq;
                        AudioEngine.current_volume := volume;
                        AudioEngine.is_playing := playing |};
     Server.out := (Server.out w
                    ++ [if playing then Server.Print_playing freq volume dist
                        else Server.Print_silent dist])
                   ++ [Server.Emit_audio_state freq volume dist playing] |}.

(** A broadcast that carries a distance carries [c]. *)
Definition reports (c : Q) (o : Server.output) : Prop :=
  match o with
  | Server.Emit_audio_state _ _ distance _ => distance = c
  | Server.Emit_sensor_update distance _ _ => distance = c
  | _ => True
  end.

Definition is_distance_message (ev : Server.event) : Prop :=
  match ev with
  | Server.Message msg => Server.topic msg = "sensors/distance"%string
  | _ => False
  end.

(** The samples of the reads that succeeded, in order. *)
Fixpoint successes (reads : list (result Q)) : list Q :=
  match reads with
  | [] => []
  | Ok x :: rest => x :: successes rest
  | Raise _ :: rest => successes rest
  end.

Definition is_reading (o : option Q) : bool :=
  match o with
  | Some _ => true
  | None => false
  end.

(** The [distance_buffer] a run of reads leaves behind. *)
Definition buffer_after (reads : list (result Q)) (distance_buffer : list Q) : list Q :=
  fold_left (fun buffer read => fst (Sensors.get_filtered_distance read buffer))
            reads distance_buffer.

(** A reading, when there is one, lies in [[lo, hi]]. *)
Definition reading_within (lo hi : Q) (o : option Q) : Prop :=
  match o with
  | Some y => lo <= y <= hi
  | None => True
  end.

Definition sample_within (lo hi : Q) (r : result Q) : Prop :=
  match r with
  | Ok x => lo <= x <= hi
  | Raise _ => True
  end.

(** What a pass of [main] publishes, given the filtered distance and the
    outcome of the potentiometer read. *)
Definition published_for (distance : option Q) (read_volume : result Z)
  : list Sensors.publication :=
  match distance, Sensors.get_volume read_volume with
  | Some d, Some v =>
      [Sensors.Publish "sensors/distance" d; Sensors.Publish "sensors/volume" v]
  | _, _ => []
  end.

(** The buffer is not empty and its first sample is 0. *)
Definition starts_at_zero (w : list R) : Prop :=
  exists s rest, w = s :: rest /\ s = 0%R.

(** The pitch the server holds is either silence, with frequency 0, or a
    frequency of the range [FREQ_MIN .. FREQ_MAX] for a distance of the
    range [DISTANCE_MIN .. DISTANCE_MAX]. *)
Definition pitch_in_range (g : Server.globals) : Prop :=
  if Server.is_playing g
  then 256 <= Server.current_frequency g <= 1024
       /\ 2 <= Server.current_distance g <= 25
  else Server.current_frequency g == 0.

(** A sounding engine sounds within [FREQ_MIN .. FREQ_MAX]. *)
Definition engine_in_range (a : AudioEngine.globals) : Prop :=
  AudioEngine.is_playing a = true -> 256 <= AudioEngine.current_frequency a <= 1024.

(** The parameters [update_audio_params] receives from globals [g]. *)
Definition mirror_of (g : Server.globals) : AudioEngine.globals :=
  {| AudioEngine.current_frequency := Server.current_frequency g;
     AudioEngine.current_volume := Server.current_volume g;
     AudioEngine.is_playing := Server.is_playing g |}.

(** The audio engine holds what the server holds. *)
Definition mirrors (w : Server.world) : Prop :=
  Server.audio w = mirror_of (Server.srv w).

(** [g] with another [current_volume]. *)
Definition with_volume (g : Server.globals) (v : Q) : Server.globals :=
  {| Server.current_distance := Server.current_distance g;
     Server.current_volume := v;
     Server.current_frequency := Server.current_frequency g;
     Server.is_playing := Server.is_playing g |}.

(** The [audio_state] that [broadcast_state] sends for globals [g]. *)
Definition audio_state_of (g : Server.globals) : Server.output :=
  Server.Emit_audio_state (Server.current_frequency g) (Server.current_volume g)
                          (Server.current_distance g) (Server.is_playing g).

Definition is_audio_state (o : Server.output) : bool :=
  match o with
  | Server.Emit_audio_state _ _ _ _ => true
  | _ => false
  end.

(** The distance the handler keeps for a received distance in [0 .. 27]. *)
Definition clamp_distance (d : Q) : Q :=
  if Qle_bool 2 d && Qle_bool d 25 then d
  else if Qle_bool 25 d then 25 else 2.

(** * Properties of rpi/sensors.py *)

Section FilterProperties.

Import Sensors.

Lemma sum_from (xs : list Q) (a : Q) :
  fold_left Qplus xs a == a + fold_right Qplus 0 xs.
Proof.
  revert a; induction xs as [|x xs IH]; intros a; simpl.
  - ring.
  - rewrite IH. ring.
Qed.

Lemma sum_over_len_is_mean (xs : list Q) : Py.sum xs / Py.len xs == mean xs.
Proof.
  unfold Py.sum, Py.len, mean. rewrite sum_from. 
  apply Qdiv_comp; [ring | reflexivity].
Qed.

Lemma tl_skipn {A : Type} (n : nat) (l : list A) : tl (skipn n l) = skipn (S n) l.
Proof.
  revert l; induction n as [|n IH]; intros [|a l]; simpl; auto.
Qed.

(** One [append] moves the window one sample to the right. *)
Lemma deque_append_window (pre : list Q) (x : Q) :
  deque_append FILTER_WINDOW_SIZE
    (lastn (Nat.min FILTER_WINDOW_SIZE (List.length pre)) pre) x
  = lastn (Nat.min FILTER_WINDOW_SIZE (List.length (pre ++ [x]))) (pre ++ [x]).
Proof.
  unfold deque_append, lastn, FILTER_WINDOW_SIZE.
  rewrite !length_app, length_skipn. simpl List.length.
  destruct (Nat.lt_ge_cases (List.length pre) 5) as [Hlt | Hge].
  - rewrite (Nat.min_r 5 (List.length pre)) by lia.
    rewrite (Nat.min_r 5 (List.length pre + 1)) by lia.
    replace (List.length pre - List.length pre)%nat with 0%nat by lia.
    replace (List.length pre + 1 - (List.length pre + 1))%nat with 0%nat by lia.
    simpl skipn.
    destruct (Nat.ltb_spec 5 (List.length pre - 0 + 1)); [lia | reflexivity].
  - rewrite (Nat.min_l 5 (List.length pre)) by lia.
    rewrite (Nat.min_l 5 (List.length pre + 1)) by lia.
    destruct (Nat.ltb_spec 5 (List.length pre - (List.length pre - 5) + 1)); [| lia].
    rewrite skipn_app.
    replace (List.length pre + 1 - 5 - List.length pre)%nat with 0%nat by lia.
    simpl skipn.
    replace (List.length pre + 1 - 5)%nat with (S (List.length pre - 5)) by lia.
    rewrite <- tl_skipn.
    destruct (skipn (List.length pre - 5) pre) eqn:E; [| reflexivity].
    apply (f_equal (@List.length Q)) in E. rewrite length_skipn in E. simpl in E. lia.
Qed.

Lemma deque_append_nonempty (maxlen : nat) (d : list Q) (x : Q) :
  (0 < maxlen)%nat -> (0 < List.length (deque_append maxlen d x))%nat.
Proof.
  intros Hm. unfold deque_append.
  destruct (Nat.ltb_spec maxlen (List.length (d ++ [x]))) as [H | H].
  - destruct d as [|a d]; simpl in *; [lia |]. rewrite length_app. simpl. lia.
  - rewrite length_app. simpl. lia.
Qed.

(** A successful read returns the mean of the buffer it leaves behind. *)
Lemma get_filtered_distance_ok (x : Q) (buf : list Q) :
  get_filtered_distance (Ok x) buf =
  (deque_append FILTER_WINDOW_SIZE buf x,
   Some (Py.sum (deque_append FILTER_WINDOW_SIZE buf x)
         / Py.len (deque_append FILTER_WINDOW_SIZE buf x))).
Proof.
  unfold get_filtered_distance.
  destruct (Nat.ltb_spec 0 (List.length (deque_append FILTER_WINDOW_SIZE buf x))) as [H | H].
  - reflexivity.
  - pose proof (deque_append_nonempty FILTER_WINDOW_SIZE buf x).
    unfold FILTER_WINDOW_SIZE in *. lia.
Qed.

(** A failed read returns [None] and leaves the buffer alone. *)
Lemma get_filtered_distance_failed (e : exn) (buf : list Q) :
  get_filtered_distance (Raise e) buf = (buf, None).
Proof. reflexivity. Qed.

(** The [k]-th output of a run that starts with the window of [pre]. *)
Lemma filtered_outputs_nth (rest pre : list Q) (k : nat) :
  (1 <= k <= List.length rest)%nat ->
  nth_error
    (filtered_outputs (map Ok rest)
       (lastn (Nat.min FILTER_WINDOW_SIZE (List.length pre)) pre)) (k - 1)
  = let seen := pre ++ firstn k rest in
    let window := lastn (Nat.min FILTER_WINDOW_SIZE (List.length seen)) seen in
    Some (Some (Py.sum window / Py.len window)).
Proof.
  revert pre k; induction rest as [|x rest IH]; intros pre k Hk; simpl in Hk; [lia |].
  cbn [map filtered_outputs]. rewrite get_filtered_distance_ok.
  rewrite deque_append_window.
  destruct k as [|[|k]]; [lia | |].
  - reflexivity.
  - replace (S (S k) - 1)%nat with (S (S k - 1)) by lia.
    cbn [nth_error]. rewrite (IH (pre ++ [x]) (S k)) by lia.
    cbn zeta. rewrite <- app_assoc. reflexivity.
Qed.

End FilterProperties.

(** C2.  Started on an empty buffer and fed successful reads, the value
    [get_filtered_distance] returns on the [k]-th read is the arithmetic mean
    of the last [min 5 k] raw samples read so far; five reads of [10] all
    return 10. *)
Theorem filtered_distance_is_window_mean (samples : list Q) (k : nat) :
  (1 <= k <= List.length samples)%nat ->
  (exists y,
      nth_error (Sensors.filtered_outputs (map Ok samples) Sensors.distance_buffer_init)
                (k - 1) = Some (Some y)
      /\ y == mean (lastn (Nat.min 5 k) (firstn k samples)))
  /\ Forall (fun o => exists y, o = Some y /\ y == 10)
            (Sensors.filtered_outputs (map Ok [10; 10; 10; 10; 10])
                                      Sensors.distance_buffer_init).
Proof.
  intros Hk. split.
  - pose proof (filtered_outputs_nth samples [] k Hk) as H.
    cbn zeta in H. simpl app in H.
    change (lastn (Nat.min Sensors.FILTER_WINDOW_SIZE (List.length (@nil Q))) [])
      with Sensors.distance_buffer_init in H.
    rewrite H. eexists. split; [reflexivity |].
    rewrite sum_over_len_is_mean.
    rewrite length_firstn, (Nat.min_l k) by lia. reflexivity.
  - repeat constructor; eexists; (split; [reflexivity | reflexivity]).
Qed.

Lemma filtered_distance_is_window_mean_witness :
  exists y,
    nth_error (Sensors.filtered_outputs (map Ok [4; 8; 15; 16; 23; 42; 10])
                                        Sensors.distance_buffer_init) (7 - 1)
    = Some (Some y)
    /\ y == mean (lastn (Nat.min 5 7) (firstn 7 [4; 8; 15; 16; 23; 42; 10])).
Proof.
  apply (filtered_distance_is_window_mean [4; 8; 15; 16; 23; 42; 10] 7).
  simpl. lia.
Defined.

(** C3 fails as stated: a raw reading above 1023 gives a volume above 1. *)
Lemma get_volume_not_clamped :
  exists v, Sensors.get_volume (Ok 2046%Z) = Some v /\ ~ (0 <= v <= 1).
Proof.
  eexists. split; [reflexivity |].
  intros [_ H]. revert H. vm_compute. intros H; apply H; reflexivity.
Qed.

(** C3, amended.  For a non-negative raw reading [get_volume] returns
    [raw / 1023], unclamped: the value is at least 0, it is at most 1
    exactly when the reading is at most 1023, and it exceeds 1 above that. *)
Theorem get_volume_range (raw : Z) :
  (0 <= raw)%Z ->
  exists v, Sensors.get_volume (Ok raw) = Some v
            /\ v == inject_Z raw / 1023
            /\ 0 <= v
            /\ ((raw <= 1023)%Z -> v <= 1)
            /\ ((1023 < raw)%Z -> 1 < v).
Proof.
  intros H0. eexists. split; [reflexivity |]. split; [reflexivity |].
  unfold Qdiv, Qle, Qlt, Qmult, Qinv, inject_Z; simpl.
  repeat split; intros; lia.
Qed.

Lemma get_volume_range_witness :
  exists v, Sensors.get_volume (Ok 512%Z) = Some v
            /\ v == inject_Z 512 / 1023
            /\ 0 <= v
            /\ ((512 <= 1023)%Z -> v <= 1)
            /\ ((1023 < 512)%Z -> 1 < v).
Proof.
  apply (get_volume_range 512). lia.
Defined.

(** * Properties of server/audio_engine.py *)

Section ToneProperties.

Import AudioEngine.

(** On non-negative numbers [int] is the floor. *)
Lemma int_nonneg (x : Q) : 0 <= x -> Py.int x = Qfloor x.
Proof.
  destruct x as [n d]. unfold Qle, Py.int, Qfloor. simpl. intros H.
  apply Z.quot_div_nonneg; lia.
Qed.

Lemma int_of_positive_product (duration : Q) :
  0 < duration -> (0 <= Py.int (SAMPLE_RATE * duration))%Z.
Proof.
  intros H.
  assert (H0 : 0 <= SAMPLE_RATE * duration).
  { apply Qmult_le_0_compat; [discriminate | apply Qlt_le_weak; exact H]. }
  rewrite (int_nonneg _ H0).
  change 0%Z with (Qfloor 0). apply Qfloor_resp_le. exact H0.
Qed.

Lemma linspace0_ok (stop : Q) (num : Z) :
  (0 <= num)%Z ->
  exists t, linspace0 stop num = Ok t /\ List.length t = Z.to_nat num.
Proof.
  intros H. unfold linspace0.
  destruct (Z.ltb_spec num 0) as [Hn | Hn]; [lia |].
  eexists. split; [reflexivity |]. rewrite length_map, length_seq. reflexivity.
Qed.

Lemma length_vadd (a b : list R) :
  List.length a = List.length b -> List.length (vadd a b) = List.length a.
Proof.
  revert b; induction a as [|x a IH]; intros [|y b] H; simpl in *; try congruence.
  f_equal. apply IH. congruence.
Qed.

Lemma length_add_harmonic (frequency : Q) (t : list Q) (w : list R) (h : Q * Q) :
  List.length w = List.length t ->
  List.length (add_harmonic frequency t w h) = List.length t.
Proof.
  intros H. destruct h as [m a]. unfold add_harmonic.
  rewrite length_vadd; [exact H | rewrite length_map; exact H].
Qed.

Lemma length_harmonics (frequency : Q) (t : list Q) (hs : list (Q * Q)) (w : list R) :
  List.length w = List.length t ->
  List.length (fold_left (add_harmonic frequency t) hs w) = List.length t.
Proof.
  revert w; induction hs as [|h hs IH]; intros w H; simpl; [exact H |].
  apply IH. apply length_add_harmonic. exact H.
Qed.

(** [generate_tone] returns, for a positive duration, and the buffer has
    [int(SAMPLE_RATE * duration)] samples. *)
Lemma generate_tone_length (frequency volume duration : Q) :
  0 < duration ->
  exists tone, generate_tone frequency volume duration = Ok tone
               /\ List.length tone = Z.to_nat (Py.int (SAMPLE_RATE * duration)).
Proof.
  intros H. unfold generate_tone.
  destruct (linspace0_ok duration _ (int_of_positive_product duration H)) as [t [Ht Hl]].
  rewrite Ht. cbn [Py.bind]. eexists. split; [reflexivity |].
  rewrite !length_map, length_harmonics; [exact Hl |].
  unfold zeros_like. apply length_map.
Qed.

Lemma generate_silence_ok (duration : Q) :
  0 < duration ->
  generate_silence duration
  = Ok (repeat 0%R (Z.to_nat (Py.int (SAMPLE_RATE * duration)))).
Proof.
  intros H. unfold generate_silence, zeros.
  pose proof (int_of_positive_product duration H) as Hn.
  destruct (Z.ltb_spec (Py.int (SAMPLE_RATE * duration)) 0); [lia | reflexivity].
Qed.

(** *** Amplitude bound *)

Lemma within_vadd (B c : R) (a b : list R) :
  within B a -> within c b -> within (B + c) (vadd a b).
Proof.
  intros Ha; revert b; induction Ha as [|x a Hx Ha IH]; intros b Hb; simpl.
  - constructor.
  - destruct Hb as [|y b Hy Hb]; constructor.
    + eapply Rle_trans; [apply Rabs_triang |]. lra.
    + apply IH. exact Hb.
Qed.

Lemma within_harmonic_wave (amp : Q) (phase : Q -> R) (t : list Q) :
  0 <= amp ->
  within (Q2R amp) (map (fun ti => (Q2R amp * sin (phase ti))%R) t).
Proof.
  intros Ha. apply Qle_Rle in Ha. rewrite RMicromega.Q2R_0 in Ha.
  unfold within. apply Forall_forall. intros x Hx.
  apply in_map_iff in Hx. destruct Hx as [ti [<- _]].
  rewrite Rabs_mult, (Rabs_pos_eq (Q2R amp)) by exact Ha.
  pose proof (SIN_bound (phase ti)) as [Hl Hu].
  assert (Hs : (Rabs (sin (phase ti)) <= 1)%R) by (apply Rabs_le; lra).
  nra.
Qed.

Lemma within_add_harmonic (frequency acc : Q) (t : list Q) (w : list R) (h : Q * Q) :
  0 <= snd h ->
  within (Q2R acc) w ->
  within (Q2R (acc + snd h)) (add_harmonic frequency t w h).
Proof.
  destruct h as [m a]. simpl. intros Ha Hw. unfold add_harmonic.
  rewrite Q2R_plus. apply within_vadd; [exact Hw |].
  apply (within_harmonic_wave a
           (fun ti => (2 * PI * Q2R (frequency * m) * Q2R ti)%R) t Ha).
Qed.

(** After the loop every sample is bounded by the amplitudes added up the
    way [sum] adds them. *)
Lemma within_harmonics (frequency : Q) (t : list Q) (hs : list (Q * Q))
      (acc : Q) (w : list R) :
  Forall (fun h => 0 <= snd h) hs ->
  within (Q2R acc) w ->
  within (Q2R (fold_left Qplus (map snd hs) acc))
         (fold_left (add_harmonic frequency t) hs w).
Proof.
  intros Hhs; revert acc w; induction Hhs as [|h hs Hh Hhs IH]; intros acc w Hw; simpl.
  - exact Hw.
  - apply IH. apply within_add_harmonic; assumption.
Qed.

Lemma within_zeros_like {A : Type} (t : list A) : within (Q2R 0) (zeros_like t).
Proof.
  unfold within, zeros_like. apply Forall_forall. intros x Hx.
  apply in_map_iff in Hx. destruct Hx as [_ [<- _]].
  rewrite Rabs_R0, RMicromega.Q2R_0. lra.
Qed.

Lemma HARMONIC_RATIOS_amplitudes : Forall (fun h => 0 <= snd h) HARMONIC_RATIOS.
Proof. repeat constructor; discriminate. Qed.

Lemma max_amplitude_value : Py.sum (map snd HARMONIC_RATIOS) == 3.98.
Proof. reflexivity. Qed.

(** Normalisation and volume: a sample bounded by the divisor ends up
    bounded by the volume. *)
Lemma scale_bound (x M v : R) :
  (0 < M)%R -> (0 <= v)%R -> (Rabs x <= M)%R -> (Rabs (x / M * v) <= v)%R.
Proof.
  intros HM Hv Hx.
  unfold Rdiv. rewrite !Rabs_mult, (Rabs_pos_eq v) by exact Hv.
  rewrite (Rabs_pos_eq (/ M)) by (left; apply Rinv_0_lt_compat; exact HM).
  assert (H1 : (Rabs x * / M <= 1)%R).
  { apply (Rmult_le_reg_r M); [exact HM |].
    rewrite Rmult_assoc, Rinv_l by lra. lra. }
  pose proof (Rabs_pos x). 
  assert (0 <= Rabs x * / M)%R.
  { apply Rmult_le_pos; [assumption | left; apply Rinv_0_lt_compat; exact HM]. }
  nra.
Qed.

Lemma generate_tone_within (frequency volume duration : Q) (tone : list R) :
  0 <= volume ->
  generate_tone frequency volume duration = Ok tone ->
  within (Q2R volume) tone.
Proof.
  intros Hv. unfold generate_tone.
  destruct (linspace0 duration (Py.int (SAMPLE_RATE * duration))) as [t | e];
    cbn [Py.bind]; [| discriminate].
  intros H; injection H as <-.
  pose proof (within_harmonics frequency t HARMONIC_RATIOS 0 (zeros_like t)
                HARMONIC_RATIOS_amplitudes (within_zeros_like t)) as Hw.
  change (fold_left Qplus (map snd HARMONIC_RATIOS) 0)
    with (Py.sum (map snd HARMONIC_RATIOS)) in Hw.
  assert (HM : (0 < Q2R (Py.sum (map snd HARMONIC_RATIOS)))%R).
  { rewrite <- RMicromega.Q2R_0. apply Qlt_Rlt. reflexivity. }
  apply Qle_Rle in Hv. rewrite RMicromega.Q2R_0 in Hv.
  unfold within in *. rewrite map_map. apply Forall_map.
  eapply Forall_impl; [| exact Hw].
  intros x Hx. cbv beta. apply scale_bound; assumption.
Qed.

End ToneProperties.

Section ProductTruncation.

Import PrimFloat Binary64.

(** [generate_tone] is [tone_on] on the time array of [linspace]. *)
Lemma generate_tone_on (frequency volume duration : Q) :
  AudioEngine.generate_tone frequency volume duration
  = (t <- AudioEngine.linspace0 duration (Py.int (AudioEngine.SAMPLE_RATE * duration)) ;;
     Ok (AudioEngine.tone_on frequency volume t)).
Proof. reflexivity. Qed.

Lemma length_tone_on (frequency volume : Q) (t : list Q) :
  List.length (AudioEngine.tone_on frequency volume t) = List.length t.
Proof.
  unfold AudioEngine.tone_on. rewrite !length_map. apply length_harmonics.
  unfold AudioEngine.zeros_like. apply length_map.
Qed.

(** Rounding to binary64 keeps the sign it is given. *)
Lemma binary_round_aux_sign (sx : bool) (mx ex : Z) (lx : SpecFloat.location) :
  match SpecFloat.binary_round_aux FloatOps.prec FloatOps.emax sx mx ex lx with
  | SpecFloat.S754_zero s | SpecFloat.S754_finite s _ _ => s = sx
  | _ => True
  end.
Proof.
  unfold SpecFloat.binary_round_aux.
  destruct (SpecFloat.shr_fexp FloatOps.prec FloatOps.emax mx ex lx) as [mrs' e'].
  destruct (SpecFloat.shr_fexp FloatOps.prec FloatOps.emax _ e' SpecFloat.loc_Exact)
    as [mrs'' e''].
  destruct (SpecFloat.shr_m mrs''); [reflexivity | | exact I].
  destruct (e'' <=? FloatOps.emax - FloatOps.prec)%Z; [reflexivity | exact I].
Qed.

Lemma positive_value (x : PrimFloat.float) :
  0 < value_b64 x -> exists m e, FloatOps.Prim2SF x = SpecFloat.S754_finite false m e.
Proof.
  unfold value_b64.
  destruct (FloatOps.Prim2SF x) as [s | s | | s m e]; try (intros H; discriminate H).
  destruct s.
  - intros H. exfalso.
    assert (0 < 2 ^ e) by (apply Qpower.Qpower_0_lt; reflexivity).
    assert (inject_Z (Z.neg m) < 0) by reflexivity.
    nra.
  - intros _. exists m, e. reflexivity.
Qed.

(** The binary64 product of the sample rate and a positive duration is not
    negative. *)
Lemma sample_product_nonneg (duration : PrimFloat.float) :
  0 < value_b64 duration ->
  finite_b64 (sample_product_b64 duration) = true ->
  0 <= value_b64 (sample_product_b64 duration).
Proof.
  intros Hx. destruct (positive_value duration Hx) as [m [e Hm]].
  unfold finite_b64, value_b64, sample_product_b64.
  rewrite FloatAxioms.mul_spec, Hm.
  change (FloatOps.Prim2SF 44100%float)
    with (SpecFloat.S754_finite false 6061057848115200 (-37)).
  unfold FloatAxioms.SF64mul, SpecFloat.SFmul. cbn [xorb].
  pose proof (binary_round_aux_sign false (Z.pos (6061057848115200 * m)) (-37 + e)
                SpecFloat.loc_Exact) as Hs.
  destruct (SpecFloat.binary_round_aux FloatOps.prec FloatOps.emax false
              (Z.pos (6061057848115200 * m)) (-37 + e) SpecFloat.loc_Exact)
    as [s | s | | s m' e']; intros Hf; try discriminate Hf.
  - apply Qle_refl.
  - subst s. apply Qmult_le_0_compat; [discriminate |].
    apply Qlt_le_weak. apply Qpower.Qpower_0_lt. reflexivity.
Qed.

Lemma int_b64_finite (x : PrimFloat.float) :
  finite_b64 x = true -> int_b64 x = Ok (Py.int (value_b64 x)).
Proof.
  unfold finite_b64, int_b64.
  destruct (FloatOps.Prim2SF x); intros H; try discriminate H; reflexivity.
Qed.

(** Both generators return, and with [int] of the binary64 product many
    samples, when that product is finite and not negative. *)
Lemma generate_b64_length (frequency volume : Q) (duration : PrimFloat.float) :
  finite_b64 (sample_product_b64 duration) = true ->
  0 <= value_b64 (sample_product_b64 duration) ->
  exists tone,
    generate_tone_b64 frequency volume duration = Ok tone
    /\ generate_silence_b64 duration
       = Ok (repeat 0%R (Z.to_nat (Qfloor (value_b64 (sample_product_b64 duration)))))
    /\ List.length tone = Z.to_nat (Qfloor (value_b64 (sample_product_b64 duration))).
Proof.
  intros Hf H0. unfold generate_tone_b64, generate_silence_b64.
  rewrite (int_b64_finite _ Hf). cbn [Py.bind]. rewrite (int_nonneg _ H0).
  assert (Hn : (0 <= Qfloor (value_b64 (sample_product_b64 duration)))%Z).
  { change 0%Z with (Qfloor 0). apply Qfloor_resp_le. exact H0. }
  destruct (linspace0_ok (value_b64 duration) _ Hn) as [t [Ht Hl]].
  rewrite Ht. cbn [Py.bind]. eexists. split; [reflexivity |]. split.
  - unfold AudioEngine.zeros.
    destruct (Z.ltb_spec (Qfloor (value_b64 (sample_product_b64 duration))) 0);
      [lia | reflexivity].
  - rewrite length_tone_on. exact Hl.
Qed.

(** C4 fails as stated: for the duration 0.00004 the binary64 product
    [SAMPLE_RATE * duration] is about 1.764, which rounds to 2, and the tone
    buffer and the silence buffer have one sample. *)
Lemma buffer_length_is_not_rounded_product :
  exists tone silence,
    Binary64.generate_tone_b64 440 0.5 0.00004%float = Ok tone
    /\ Binary64.generate_silence_b64 0.00004%float = Ok silence
    /\ List.length tone = 1%nat
    /\ List.length silence = 1%nat
    /\ Z.to_nat (Binary64.round_b64 (Binary64.sample_product_b64 0.00004%float)) = 2%nat.
Proof.
  destruct (generate_b64_length 440 0.5 0.00004%float) as [tone [Ht [Hs Hl]]];
    [reflexivity | discriminate |].
  exists tone. eexists. split; [exact Ht |]. split; [exact Hs |].
  split; [exact Hl |]. split; reflexivity.
Qed.

(** C4, amended.  For a binary64 duration greater than 0 whose product with
    the sample rate is finite, [generate_tone] and [generate_silence]
    return buffers of exactly [int(SAMPLE_RATE * duration)] samples: the
    binary64 product, truncated to an integer (its floor).  This is
    [round(SAMPLE_RATE * duration)] when the fractional part of the product
    is below one half, and one less when it is above. *)
Theorem buffer_length_is_truncated_product
        (frequency volume : Q) (duration : PrimFloat.float) :
  0 < Binary64.value_b64 duration ->
  Binary64.finite_b64 (Binary64.sample_product_b64 duration) = true ->
  let product := Binary64.value_b64 (Binary64.sample_product_b64 duration) in
  exists tone silence,
    Binary64.generate_tone_b64 frequency volume duration = Ok tone
    /\ Binary64.generate_silence_b64 duration = Ok silence
    /\ List.length tone = Z.to_nat (Qfloor product)
    /\ List.length silence = Z.to_nat (Qfloor product)
    /\ (product - inject_Z (Qfloor product) < 1 # 2 ->
        Z.of_nat (List.length tone)
        = Binary64.round_b64 (Binary64.sample_product_b64 duration))
    /\ (1 # 2 < product - inject_Z (Qfloor product) ->
        (Z.of_nat (List.length tone) + 1)%Z
        = Binary64.round_b64 (Binary64.sample_product_b64 duration)).
Proof.
  intros Hd Hf product.
  pose proof (sample_product_nonneg duration Hd Hf) as H0. fold product in H0.
  destruct (generate_b64_length frequency volume duration Hf H0) as [tone [Ht [Hs Hl]]].
  fold product in Hs, Hl.
  assert (Hn : (0 <= Qfloor product)%Z).
  { change 0%Z with (Qfloor 0). apply Qfloor_resp_le. exact H0. }
  exists tone. eexists. split; [exact Ht |]. split; [exact Hs |].
  split; [exact Hl |]. split; [apply repeat_length |].
  unfold Binary64.round_b64, Py.round. fold product. cbv zeta.
  rewrite Hl, Z2Nat.id by exact Hn. split.
  - intros Hfrac. rewrite Qlt_alt in Hfrac. rewrite Hfrac. reflexivity.
  - intros Hfrac. rewrite Qgt_alt in Hfrac. rewrite Hfrac. reflexivity.
Qed.

Lemma buffer_length_is_truncated_product_witness :
  let product := Binary64.value_b64 (Binary64.sample_product_b64 0.3%float) in
  exists tone silence,
    Binary64.generate_tone_b64 440 0.5 0.3%float = Ok tone
    /\ Binary64.generate_silence_b64 0.3%float = Ok silence
    /\ List.length tone = Z.to_nat (Qfloor product)
    /\ List.length silence = Z.to_nat (Qfloor product)
    /\ (product - inject_Z (Qfloor product) < 1 # 2 ->
        Z.of_nat (List.length tone)
        = Binary64.round_b64 (Binary64.sample_product_b64 0.3%float))
    /\ (1 # 2 < product - inject_Z (Qfloor product) ->
        (Z.of_nat (List.length tone) + 1)%Z
        = Binary64.round_b64 (Binary64.sample_product_b64 0.3%float)).
Proof.
  apply (buffer_length_is_truncated_product 440 0.5 0.3%float).
  - reflexivity.
  - reflexivity.
Defined.

(** The sample counts of some ordinary durations, from the binary64
    product: 2205 at 0.05, 882 at 0.02, 13230 at 0.3, where the exact
    product of the double lies just below 13230, and 30869 at 0.7, where
    the decimal 7/10 would give 30870. *)
Example sample_counts_b64 :
  Binary64.int_b64 (Binary64.sample_product_b64 0.05%float) = Ok 2205%Z
  /\ Binary64.int_b64 (Binary64.sample_product_b64 0.02%float) = Ok 882%Z
  /\ Binary64.int_b64 (Binary64.sample_product_b64 0.3%float) = Ok 13230%Z
  /\ Py.int (AudioEngine.SAMPLE_RATE * Binary64.value_b64 0.3%float) = 13229%Z
  /\ Binary64.int_b64 (Binary64.sample_product_b64 0.7%float) = Ok 30869%Z
  /\ Py.int (AudioEngine.SAMPLE_RATE * (7 # 10)) = 30870%Z.
Proof. repeat split. Qed.

(** At the two durations the program passes, 0.05 and 0.02, the binary64
    count is the count of [AudioEngine.generate_tone] on the exact value. *)
Example sample_counts_agree :
  Binary64.int_b64 (Binary64.sample_product_b64 0.05%float)
  = Ok (Py.int (AudioEngine.SAMPLE_RATE * AudioEngine.CHUNK_DURATION))
  /\ Binary64.int_b64 (Binary64.sample_product_b64 0.02%float)
     = Ok (Py.int (AudioEngine.SAMPLE_RATE * 0.02)).
Proof. split; reflexivity. Qed.

End ProductTruncation.

(** C9.  For a positive duration and a volume in [0, 1], [generate_tone]
    returns a buffer every sample of which has absolute value at most the
    volume, hence at most 1; the divisor applied to the harmonic sum is the
    sum of the amplitudes of [HARMONIC_RATIOS], 3.98. *)
Theorem tone_samples_bounded_by_volume (frequency volume duration : Q) :
  0 < duration ->
  0 <= volume <= 1 ->
  Py.sum (map snd AudioEngine.HARMONIC_RATIOS) == 3.98
  /\ exists tone,
      AudioEngine.generate_tone frequency volume duration = Ok tone
      /\ Forall (fun s => (Rabs s <= Q2R volume)%R /\ (Rabs s <= 1)%R) tone.
Proof.
  intros Hd [Hv0 Hv1]. split; [apply max_amplitude_value |].
  destruct (generate_tone_length frequency volume duration Hd) as [tone [Ht _]].
  exists tone. split; [exact Ht |].
  pose proof (generate_tone_within frequency volume duration tone Hv0 Ht) as Hw.
  apply Qle_Rle in Hv1. rewrite RMicromega.Q2R_1 in Hv1.
  eapply Forall_impl; [| exact Hw].
  intros s Hs. cbv beta in *. split; [exact Hs | lra].
Qed.

Lemma tone_samples_bounded_by_volume_witness :
  Py.sum (map snd AudioEngine.HARMONIC_RATIOS) == 3.98
  /\ exists tone,
      AudioEngine.generate_tone 440 0.5 AudioEngine.CHUNK_DURATION = Ok tone
      /\ Forall (fun s => (Rabs s <= Q2R 0.5)%R /\ (Rabs s <= 1)%R) tone.
Proof.
  apply (tone_samples_bounded_by_volume 440 0.5 AudioEngine.CHUNK_DURATION).
  - reflexivity.
  - split; discriminate.
Defined.

Section CallbackProperties.

Import AudioEngine.

Lemma assign_column_same_length (outdata chunk : list R) :
  List.length chunk = List.length outdata -> assign_column outdata chunk = Ok chunk.
Proof.
  intros H. unfold assign_column. rewrite H, Nat.eqb_refl. reflexivity.
Qed.

Lemma assign_column_mismatch (outdata chunk : list R) :
  List.length chunk <> List.length outdata ->
  List.length chunk <> 1%nat ->
  assign_column outdata chunk = Raise ValueError.
Proof.
  intros H H1. unfold assign_column.
  destruct (Nat.eqb_spec (List.length chunk) (List.length outdata)); [contradiction |].
  destruct chunk as [|x [|y chunk]]; simpl in *; congruence.
Qed.

Lemma CHUNK_SIZE_value : CHUNK_SIZE = 2205%Z.
Proof. reflexivity. Qed.

Lemma CHUNK_DURATION_positive : 0 < CHUNK_DURATION.
Proof. reflexivity. Qed.

(** The handler of [audio_callback]: zeros into an [outdata] of [frames]
    rows. *)
Lemma handler_writes_zeros (outdata : list R) (frames : Z) :
  Z.of_nat (List.length outdata) = frames ->
  (z <- zeros frames ;; assign_column outdata z)
  = Ok (repeat 0%R (Z.to_nat frames)).
Proof.
  intros H. unfold zeros.
  destruct (Z.ltb_spec frames 0); [lia |]. cbn [Py.bind].
  apply assign_column_same_length. rewrite repeat_length. lia.
Qed.

(** Whatever the generators do, a failing [try] block ends in the handler,
    which fills [outdata] with zeros and returns. *)
Lemma callback_failure_is_silence
      (gen_tone : Q -> Q -> Q -> result (list R)) (gen_silence : Q -> result (list R))
      (g : globals) (outdata : list R) (frames : Z) (status : bool) (e : exn) :
  Z.of_nat (List.length outdata) = frames ->
  audio_callback_try gen_tone gen_silence g outdata = Raise e ->
  audio_callback_with gen_tone gen_silence g outdata frames status
  = Ok (repeat 0%R (Z.to_nat frames),
        (if status then ["Audio callback status"%string] else [])
        ++ [("Error in audio callback: " ++ exn_str e)%string]).
Proof.
  intros Hf Htry. unfold audio_callback_with. rewrite Htry.
  pose proof (handler_writes_zeros outdata frames Hf) as Hh.
  destruct (zeros frames) as [z | e']; cbn [Py.bind] in *; [| discriminate].
  rewrite Hh. reflexivity.
Qed.

(** With the gate off the [try] block asks for silence. *)
Lemma callback_try_gate_off (g : globals) (outdata : list R) :
  is_playing g = false \/ current_frequency g <= 0 ->
  audio_callback_try generate_tone generate_silence g outdata
  = assign_column outdata (repeat 0%R (Z.to_nat CHUNK_SIZE)).
Proof.
  intros Hgate. unfold audio_callback_try.
  assert (Hc : is_playing g && negb (Qle_bool (current_frequency g) 0) = false).
  { destruct Hgate as [Hp | Hq].
    - rewrite Hp. reflexivity.
    - apply Qle_bool_iff in Hq. rewrite Hq. apply andb_false_r. }
  rewrite Hc, (generate_silence_ok CHUNK_DURATION CHUNK_DURATION_positive).
  reflexivity.
Qed.

End CallbackProperties.

(** C6.  When [is_playing] is false or [current_frequency <= 0],
    [audio_callback] leaves [outdata] all zeros, [frames] samples long; for
    the block size of the stream, [CHUNK_SIZE], nothing is logged as an
    error and a tone buffer has that same length. *)
Theorem callback_gate_off_is_silence
        (g : AudioEngine.globals) (outdata : list R) (frames : Z) (status : bool) :
  Z.of_nat (List.length outdata) = frames ->
  AudioEngine.is_playing g = false \/ AudioEngine.current_frequency g <= 0 ->
  (exists printed,
      AudioEngine.audio_callback g outdata frames status
      = Ok (repeat 0%R (Z.to_nat frames), printed)
      /\ (frames = AudioEngine.CHUNK_SIZE ->
          printed = if status then ["Audio callback status"%string] else []))
  /\ (forall frequency volume,
         exists tone,
           AudioEngine.generate_tone frequency volume AudioEngine.CHUNK_DURATION = Ok tone
           /\ AudioEngine.generate_silence AudioEngine.CHUNK_DURATION
              = Ok (repeat 0%R (List.length tone))
           /\ List.length tone = Z.to_nat AudioEngine.CHUNK_SIZE).
Proof.
  intros Hf Hgate. split.
  - pose proof (callback_try_gate_off g outdata Hgate) as Htry.
    destruct (Nat.eq_dec (Z.to_nat AudioEngine.CHUNK_SIZE) (List.length outdata)) as [Heq | Hne].
    + rewrite assign_column_same_length in Htry by (rewrite repeat_length; exact Heq).
      unfold AudioEngine.audio_callback, AudioEngine.audio_callback_with.
      rewrite Htry. eexists. split; [| reflexivity].
      replace (Z.to_nat frames) with (Z.to_nat AudioEngine.CHUNK_SIZE) by lia.
      reflexivity.
    + rewrite assign_column_mismatch in Htry.
      * unfold AudioEngine.audio_callback.
        rewrite (callback_failure_is_silence _ _ g outdata frames status ValueError Hf Htry).
        eexists. split; [reflexivity |].
        intros ->. exfalso. apply Hne. rewrite <- Hf. lia.
      * rewrite repeat_length. exact Hne.
      * rewrite repeat_length, CHUNK_SIZE_value. discriminate.
  - intros frequency volume.
    destruct (generate_tone_length frequency volume AudioEngine.CHUNK_DURATION
                CHUNK_DURATION_positive) as [tone [Ht Hl]].
    exists tone. split; [exact Ht |]. split; [| exact Hl].
    rewrite Hl. apply generate_silence_ok. exact CHUNK_DURATION_positive.
Qed.

Lemma callback_gate_off_is_silence_witness :
  (exists printed,
      AudioEngine.audio_callback
        {| AudioEngine.current_frequency := 440;
           AudioEngine.current_volume := 0.5;
           AudioEngine.is_playing := false |}
        [1%R; 1%R; 1%R] 3 false
      = Ok (repeat 0%R (Z.to_nat 3), printed)
      /\ (3%Z = AudioEngine.CHUNK_SIZE ->
          printed = if false then ["Audio callback status"%string] else []))
  /\ (forall frequency volume,
         exists tone,
           AudioEngine.generate_tone frequency volume AudioEngine.CHUNK_DURATION = Ok tone
           /\ AudioEngine.generate_silence AudioEngine.CHUNK_DURATION
              = Ok (repeat 0%R (List.length tone))
           /\ List.length tone = Z.to_nat AudioEngine.CHUNK_SIZE).
Proof.
  apply (callback_gate_off_is_silence
           {| AudioEngine.current_frequency := 440;
              AudioEngine.current_volume := 0.5;
              AudioEngine.is_playing := false |}
           [1%R; 1%R; 1%R] 3 false).
  - reflexivity.
  - left. reflexivity.
Defined.

(** C7.  Whenever the [try] block of [audio_callback] raises, be it in the
    tone or silence generator or in the copy into [outdata], the callback
    returns normally with [outdata] all zeros, [frames] samples long, and
    the failure printed. *)
Theorem callback_failure_writes_silence
        (gen_tone : Q -> Q -> Q -> result (list R)) (gen_silence : Q -> result (list R))
        (g : AudioEngine.globals) (outdata : list R) (frames : Z) (status : bool)
        (e : exn) :
  Z.of_nat (List.length outdata) = frames ->
  AudioEngine.audio_callback_try gen_tone gen_silence g outdata = Raise e ->
  exists printed,
    AudioEngine.audio_callback_with gen_tone gen_silence g outdata frames status
    = Ok (repeat 0%R (Z.to_nat frames), printed)
    /\ In ("Error in audio callback: " ++ exn_str e)%string printed.
Proof.
  intros Hf Htry.
  rewrite (callback_failure_is_silence gen_tone gen_silence g outdata frames status e Hf Htry).
  eexists. split; [reflexivity |].
  apply in_or_app. right. left. reflexivity.
Qed.

Lemma callback_failure_writes_silence_witness :
  exists printed,
    AudioEngine.audio_callback_with AudioEngine.generate_tone AudioEngine.generate_silence
      AudioEngine.globals_init [1%R; 1%R; 1%R] 3 false
    = Ok (repeat 0%R (Z.to_nat 3), printed)
    /\ In ("Error in audio callback: " ++ exn_str ValueError)%string printed.
Proof.
  apply (callback_failure_writes_silence
           AudioEngine.generate_tone AudioEngine.generate_silence
           AudioEngine.globals_init [1%R; 1%R; 1%R] 3 false ValueError).
  - reflexivity.
  - reflexivity.
Defined.

(** A tone generator that raises while the gate is on: the callback still
    hands back a full block of zeros. *)
Example callback_with_failing_synth :
  AudioEngine.audio_callback_with
    (fun _ _ _ => Raise RuntimeError) AudioEngine.generate_silence
    {| AudioEngine.current_frequency := 440;
       AudioEngine.current_volume := 0.5;
       AudioEngine.is_playing := true |}
    (repeat 1%R 2205) AudioEngine.CHUNK_SIZE false
  = Ok (repeat 0%R 2205, ["Error in audio callback: RuntimeError"%string]).
Proof.
  apply (callback_failure_is_silence
           (fun _ _ _ => Raise RuntimeError) AudioEngine.generate_silence
           _ (repeat 1%R 2205) AudioEngine.CHUNK_SIZE false RuntimeError).
  - rewrite repeat_length. reflexivity.
  - reflexivity.
Qed.

(** [audio_callback] itself never lets an exception out. *)
Lemma audio_callback_returns
      (g : AudioEngine.globals) (outdata : list R) (frames : Z) (status : bool) :
  Z.of_nat (List.length outdata) = frames ->
  exists outdata' printed,
    AudioEngine.audio_callback g outdata frames status = Ok (outdata', printed)
    /\ List.length outdata' = Z.to_nat frames.
Proof.
  intros Hf. unfold AudioEngine.audio_callback.
  destruct (AudioEngine.audio_callback_try AudioEngine.generate_tone
              AudioEngine.generate_silence g outdata) as [o | e] eqn:Htry.
  - unfold AudioEngine.audio_callback_with. rewrite Htry.
    exists o. eexists. split; [reflexivity |].
    unfold AudioEngine.audio_callback_try in Htry.
    destruct (if AudioEngine.is_playing g
                   && negb (Qle_bool (AudioEngine.current_frequency g) 0)
              then _ else _) as [chunk | e]; cbn [Py.bind] in Htry; [| discriminate].
    unfold AudioEngine.assign_column in Htry.
    destruct (Nat.eqb_spec (List.length chunk) (List.length outdata)) as [Hl | Hl].
    + injection Htry as <-. lia.
    + destruct chunk as [|x [|y chunk]]; try discriminate.
      injection Htry as <-. rewrite repeat_length. lia.
  - rewrite (callback_failure_is_silence _ _ g outdata frames status e Hf Htry).
    eexists. eexists. split; [reflexivity |]. apply repeat_length.
Qed.

(** * Properties of server/server.py *)

Section HandlerProperties.

Import Server.

Variable py_float : string -> result Q.

Ltac exec :=
  cbv beta iota zeta delta
    [mbind read assign emit ret eval try_except
     set_current_distance set_current_volume set_current_frequency set_is_playing
     broadcast_state broadcast_sensor_update update_audio_engine handle_connect
     AudioEngine.update_audio_params
     srv audio out current_distance current_volume current_frequency is_playing
     topic payload fst snd].

Ltac run_distance Hp :=
  unfold on_distance, on_message, on_message_try; exec; rewrite Hp;
  cbn [String.eqb Ascii.eqb Bool.eqb]; exec.

(** The mapping is the line through (2, 1024) and (25, 256). *)
Lemma frequency_linear (d : Q) :
  frequency_of (normalized_of d) == 1024 - (768 # 23) * (d - 2).
Proof.
  unfold frequency_of, normalized_of, FREQ_MIN, FREQ_MAX, DISTANCE_MIN, DISTANCE_MAX.
  field.
Qed.

Lemma band_test (a b d : Q) :
  Qle_bool a d && Qle_bool d b = true <-> a <= d <= b.
Proof.
  rewrite andb_true_iff, !Qle_bool_iff. tauto.
Qed.

Lemma band_test_false (a b d : Q) :
  Qle_bool a d && Qle_bool d b = false <-> ~ (a <= d <= b).
Proof.
  rewrite <- band_test. symmetry. apply not_true_iff_false.
Qed.

(** The four branches of the distance topic. *)

Lemma on_distance_in_band (w : world) (p : string) (d : Q) :
  py_float p = Ok d ->
  DISTANCE_MIN <= d <= DISTANCE_MAX ->
  on_distance py_float p w = after_distance w d (frequency_of (normalized_of d)) true.
Proof.
  intros Hp H1. apply band_test in H1.
  run_distance Hp. rewrite H1. reflexivity.
Qed.

Lemma on_distance_upper_band (w : world) (p : string) (d : Q) :
  py_float p = Ok d ->
  ~ (DISTANCE_MIN <= d <= DISTANCE_MAX) ->
  DISTANCE_MAX <= d <= BUFFER_MAX ->
  on_distance py_float p w = after_distance w 25 (frequency_of (normalized_of 25)) true.
Proof.
  intros Hp H1 H2. apply band_test_false in H1. apply band_test in H2.
  run_distance Hp. rewrite H1, H2. reflexivity.
Qed.

Lemma on_distance_lower_band (w : world) (p : string) (d : Q) :
  py_float p = Ok d ->
  ~ (DISTANCE_MIN <= d <= DISTANCE_MAX) ->
  ~ (DISTANCE_MAX <= d <= BUFFER_MAX) ->
  BUFFER_MIN <= d <= DISTANCE_MIN ->
  on_distance py_float p w = after_distance w 2 (frequency_of (normalized_of 2)) true.
Proof.
  intros Hp H1 H2 H3.
  apply band_test_false in H1. apply band_test_false in H2. apply band_test in H3.
  run_distance Hp. rewrite H1, H2, H3. reflexivity.
Qed.

Lemma on_distance_outside (w : world) (p : string) (d : Q) :
  py_float p = Ok d ->
  ~ (DISTANCE_MIN <= d <= DISTANCE_MAX) ->
  ~ (DISTANCE_MAX <= d <= BUFFER_MAX) ->
  ~ (BUFFER_MIN <= d <= DISTANCE_MIN) ->
  on_distance py_float p w = after_distance w d 0 false.
Proof.
  intros Hp H1 H2 H3.
  apply band_test_false in H1. apply band_test_false in H2. apply band_test_false in H3.
  run_distance Hp. rewrite H1, H2, H3. reflexivity.
Qed.

(** A payload that does not parse: the handler prints and returns, with
    nothing assigned. *)
Lemma on_unparseable (w : world) (msg : message) (e : exn) :
  py_float (payload msg) = Raise e ->
  on_message py_float msg w
  = (Ok tt, {| srv := srv w; audio := audio w; out := out w ++ [Print_error e] |}).
Proof.
  destruct msg as [t p]. cbn [payload]. intros Hp.
  unfold on_message, on_message_try. exec. rewrite Hp. reflexivity.
Qed.

(** A message on another topic leaves [current_distance] alone, and what
    it broadcasts carries that distance. *)
Lemma on_other_message (w : world) (msg : message) :
  topic msg <> "sensors/distance"%string ->
  current_distance (srv (snd (on_message py_float msg w))) = current_distance (srv w)
  /\ exists tail,
      out (snd (on_message py_float msg w)) = out w ++ tail
      /\ Forall (reports (current_distance (srv w))) tail.
Proof.
  destruct msg as [t p]. cbn [topic]. intros Ht.
  destruct (py_float p) as [v | e] eqn:Hp.
  - apply String.eqb_neq in Ht.
    unfold on_message, on_message_try. exec. rewrite Hp, Ht.
    destruct (t =? "sensors/volume")%string; [| destruct (t =? "control/status")%string];
      exec; (split; [reflexivity |]).
    + eexists. split; [reflexivity |]. repeat constructor.
    + rewrite <- app_assoc. eexists. split; [reflexivity |]. repeat constructor.
    + eexists. split; [reflexivity |]. repeat constructor.
  - rewrite (on_unparseable w {| topic := t; payload := p |} e Hp). cbn [snd srv out].
    split; [reflexivity |]. eexists. split; [reflexivity |]. repeat constructor.
Qed.

Lemma step_keeps_distance (w : world) (ev : event) :
  ~ is_distance_message ev ->
  current_distance (srv (step py_float ev w)) = current_distance (srv w)
  /\ exists tail,
      out (step py_float ev w) = out w ++ tail
      /\ Forall (reports (current_distance (srv w))) tail.
Proof.
  destruct ev as [msg | now |]; cbn [is_distance_message step]; intros H.
  - apply on_other_message. exact H.
  - exec. split; [reflexivity |]. eexists. split; [reflexivity |]. repeat constructor.
  - exec. split; [reflexivity |]. rewrite <- app_assoc.
    eexists. split; [reflexivity |]. repeat constructor.
Qed.

(** Until the next distance message the stored distance stays, and every
    broadcast in between carries it. *)
Lemma run_keeps_distance (evs : list event) (w : world) :
  Forall (fun ev => ~ is_distance_message ev) evs ->
  current_distance (srv (run py_float evs w)) = current_distance (srv w)
  /\ exists tail,
      out (run py_float evs w) = out w ++ tail
      /\ Forall (reports (current_distance (srv w))) tail.
Proof.
  intros H; revert w; induction H as [|ev evs Hev Hevs IH]; intros w; cbn [run].
  - split; [reflexivity |]. exists []. split; [symmetry; apply app_nil_r | constructor].
  - destruct (step_keeps_distance w ev Hev) as [Hd [t1 [Ho1 Hr1]]].
    destruct (IH (step py_float ev w)) as [Hd2 [t2 [Ho2 Hr2]]].
    rewrite Hd in Hd2, Hr2. split; [exact Hd2 |].
    exists (t1 ++ t2). split.
    + rewrite Ho2, Ho1, app_assoc. reflexivity.
    + apply Forall_app. split; assumption.
Qed.

End HandlerProperties.

Ltac conj_split := match goal with |- _ /\ _ => split end.

Ltac band_cases :=
  cbn [after_distance Server.srv Server.audio Server.current_frequency
       Server.is_playing AudioEngine.current_frequency AudioEngine.is_playing];
  repeat conj_split; intros; repeat conj_split;
  first [ reflexivity | exfalso; lra | compute; reflexivity ].

(** C1.  For payloads denoting distances [2 <= d1 <= d2 <= 25] the handler
    stores the frequency [256 + 768 * (1 - (d - 2) / 23)] and sets
    [is_playing]; the frequency does not increase with the distance and
    strictly decreases when the distance strictly grows; it is 1024 at
    [d = 2] and 256 at [d = 25], and at [d = 13.5] the normalized value is
    0.5 and the frequency 640. *)
Theorem in_band_frequency_mapping
        (py_float : string -> result Q) (w1 w2 : Server.world)
        (p1 p2 : string) (d1 d2 : Q) :
  py_float p1 = Ok d1 ->
  py_float p2 = Ok d2 ->
  2 <= d1 -> d1 <= d2 -> d2 <= 25 ->
  let s1 := Server.srv (on_distance py_float p1 w1) in
  let s2 := Server.srv (on_distance py_float p2 w2) in
  Server.current_frequency s1 = Server.frequency_of (Server.normalized_of d1)
  /\ Server.current_frequency s2 = Server.frequency_of (Server.normalized_of d2)
  /\ Server.is_playing s1 = true
  /\ Server.is_playing s2 = true
  /\ Server.current_frequency s2 <= Server.current_frequency s1
  /\ (d1 < d2 -> Server.current_frequency s2 < Server.current_frequency s1)
  /\ (d1 == 2 -> Server.current_frequency s1 == 1024)
  /\ (d2 == 25 -> Server.current_frequency s2 == 256)
  /\ (d1 == 13.5 ->
      Server.normalized_of d1 == 0.5 /\ Server.current_frequency s1 == 640).
Proof.
  intros Hp1 Hp2 Hlo Hle Hhi s1 s2. subst s1 s2.
  assert (Hin1 : Server.DISTANCE_MIN <= d1 <= Server.DISTANCE_MAX).
  { unfold Server.DISTANCE_MIN, Server.DISTANCE_MAX. split; lra. }
  assert (Hin2 : Server.DISTANCE_MIN <= d2 <= Server.DISTANCE_MAX).
  { unfold Server.DISTANCE_MIN, Server.DISTANCE_MAX. split; lra. }
  rewrite (on_distance_in_band py_float w1 p1 d1 Hp1 Hin1).
  rewrite (on_distance_in_band py_float w2 p2 d2 Hp2 Hin2).
  cbn [after_distance Server.srv Server.current_frequency Server.is_playing].
  pose proof (frequency_linear d1) as L1. pose proof (frequency_linear d2) as L2.
  repeat conj_split; try reflexivity; try (intros; lra).
  - intros H. split; [| lra].
    unfold Server.normalized_of, Server.DISTANCE_MIN, Server.DISTANCE_MAX.
    setoid_rewrite H. reflexivity.
Qed.

Lemma in_band_frequency_mapping_witness :
  let s1 := Server.srv (on_distance Decimal.float "13.5" Server.world_init) in
  let s2 := Server.srv (on_distance Decimal.float "25" Server.world_init) in
  Server.current_frequency s1 = Server.frequency_of (Server.normalized_of 13.5)
  /\ Server.current_frequency s2 = Server.frequency_of (Server.normalized_of 25)
  /\ Server.is_playing s1 = true
  /\ Server.is_playing s2 = true
  /\ Server.current_frequency s2 <= Server.current_frequency s1
  /\ (13.5 < 25 -> Server.current_frequency s2 < Server.current_frequency s1)
  /\ (13.5 == 2 -> Server.current_frequency s1 == 1024)
  /\ (25 == 25 -> Server.current_frequency s2 == 256)
  /\ (13.5 == 13.5 ->
      Server.normalized_of 13.5 == 0.5 /\ Server.current_frequency s1 == 640).
Proof.
  apply (in_band_frequency_mapping Decimal.float Server.world_init Server.world_init
           "13.5" "25" 13.5 25).
  - reflexivity.
  - reflexivity.
  - discriminate.
  - discriminate.
  - discriminate.
Defined.

(** C5.  For a payload denoting a distance [d] outside [2, 25]: if
    [25 < d <= 27] the handler stores the frequency of the formula at
    [d = 25], which is 256, and sets [is_playing]; if [0 <= d < 2] it stores
    the frequency of the formula at [d = 2], which is 1024, and sets
    [is_playing]; in every other case it stores frequency 0 and clears
    [is_playing].  The audio engine receives the stored frequency and gate. *)
Theorem out_of_band_mapping
        (py_float : string -> result Q) (w : Server.world) (p : string) (d : Q) :
  py_float p = Ok d ->
  ~ (2 <= d <= 25) ->
  let w' := on_distance py_float p w in
  (25 < d <= 27 ->
   Server.current_frequency (Server.srv w')
   = Server.frequency_of (Server.normalized_of Server.DISTANCE_MAX)
   /\ Server.current_frequency (Server.srv w') == 256
   /\ Server.is_playing (Server.srv w') = true)
  /\ (0 <= d < 2 ->
      Server.current_frequency (Server.srv w')
      = Server.frequency_of (Server.normalized_of Server.DISTANCE_MIN)
      /\ Server.current_frequency (Server.srv w') == 1024
      /\ Server.is_playing (Server.srv w') = true)
  /\ (~ (25 < d <= 27) -> ~ (0 <= d < 2) ->
      Server.current_frequency (Server.srv w') = 0
      /\ Server.is_playing (Server.srv w') = false)
  /\ AudioEngine.current_frequency (Server.audio w')
     = Server.current_frequency (Server.srv w')
  /\ AudioEngine.is_playing (Server.audio w') = Server.is_playing (Server.srv w').
Proof.
  intros Hp Hout w'. subst w'.
  assert (H1 : ~ (Server.DISTANCE_MIN <= d <= Server.DISTANCE_MAX)) by exact Hout.
  destruct (Qlt_le_dec 25 d) as [Hgt | Hle25].
  - destruct (Qlt_le_dec 27 d) as [Hgt27 | Hle27].
    + rewrite (on_distance_outside py_float w p d Hp H1).
      * band_cases.
      * unfold Server.DISTANCE_MAX, Server.BUFFER_MAX. lra.
      * unfold Server.DISTANCE_MIN, Server.BUFFER_MIN. lra.
    + rewrite (on_distance_upper_band py_float w p d Hp H1).
      * band_cases.
      * unfold Server.DISTANCE_MAX, Server.BUFFER_MAX. lra.
  - assert (Hlt2 : d < 2).
    { destruct (Qlt_le_dec d 2) as [H | H]; [exact H |]. exfalso. apply Hout. lra. }
    destruct (Qlt_le_dec d 0) as [Hneg | Hpos].
    + rewrite (on_distance_outside py_float w p d Hp H1).
      * band_cases.
      * unfold Server.DISTANCE_MAX, Server.BUFFER_MAX. lra.
      * unfold Server.DISTANCE_MIN, Server.BUFFER_MIN. lra.
    + rewrite (on_distance_lower_band py_float w p d Hp H1).
      * band_cases.
      * unfold Server.DISTANCE_MAX, Server.BUFFER_MAX. lra.
      * unfold Server.DISTANCE_MIN, Server.BUFFER_MIN. lra.
Qed.

Lemma out_of_band_mapping_witness :
  let w' := on_distance Decimal.float "1" Server.world_init in
  (25 < 1 <= 27 ->
   Server.current_frequency (Server.srv w')
   = Server.frequency_of (Server.normalized_of Server.DISTANCE_MAX)
   /\ Server.current_frequency (Server.srv w') == 256
   /\ Server.is_playing (Server.srv w') = true)
  /\ (0 <= 1 < 2 ->
      Server.current_frequency (Server.srv w')
      = Server.frequency_of (Server.normalized_of Server.DISTANCE_MIN)
      /\ Server.current_frequency (Server.srv w') == 1024
      /\ Server.is_playing (Server.srv w') = true)
  /\ (~ (25 < 1 <= 27) -> ~ (0 <= 1 < 2) ->
      Server.current_frequency (Server.srv w') = 0
      /\ Server.is_playing (Server.srv w') = false)
  /\ AudioEngine.current_frequency (Server.audio w')
     = Server.current_frequency (Server.srv w')
  /\ AudioEngine.is_playing (Server.audio w') = Server.is_playing (Server.srv w').
Proof.
  apply (out_of_band_mapping Decimal.float Server.world_init "1" 1).
  - reflexivity.
  - intros [H _]. revert H. vm_compute. intros H. apply H. reflexivity.
Defined.

(** The scenarios of the distance topic, run from the initial globals. *)

Example distance_1_plays_1024 :
  let s := Server.srv (on_distance Decimal.float "1" Server.world_init) in
  Server.current_frequency s == 1024 /\ Server.is_playing s = true.
Proof. split; reflexivity. Qed.

Example distance_26_5_plays_256 :
  let s := Server.srv (on_distance Decimal.float "26.5" Server.world_init) in
  Server.current_frequency s == 256 /\ Server.is_playing s = true.
Proof. split; reflexivity. Qed.

Example distance_50_is_silent :
  let s := Server.srv (on_distance Decimal.float "50" Server.world_init) in
  Server.current_frequency s == 0 /\ Server.is_playing s = false.
Proof. split; reflexivity. Qed.

Example distance_negative_is_silent :
  let s := Server.srv (on_distance Decimal.float "-3" Server.world_init) in
  Server.current_frequency s == 0 /\ Server.is_playing s = false.
Proof. split; reflexivity. Qed.

Example distance_13_5_plays_640 :
  let s := Server.srv (on_distance Decimal.float "13.5" Server.world_init) in
  Server.current_frequency s == 640 /\ Server.is_playing s = true.
Proof. split; reflexivity. Qed.

(** C8.  When the payload of a message does not parse, [on_message] returns
    normally, its globals and those of the audio engine are what they were,
    and the only effect is one printed error line. *)
Theorem unparseable_payload_is_dropped
        (py_float : string -> result Q) (w : Server.world) (msg : Server.message)
        (e : exn) :
  py_float (Server.payload msg) = Raise e ->
  fst (Server.on_message py_float msg w) = Ok tt
  /\ Server.srv (snd (Server.on_message py_float msg w)) = Server.srv w
  /\ Server.audio (snd (Server.on_message py_float msg w)) = Server.audio w
  /\ Server.out (snd (Server.on_message py_float msg w))
     = Server.out w ++ [Server.Print_error e].
Proof.
  intros Hp. rewrite (on_unparseable py_float w msg e Hp).
  repeat split.
Qed.

Lemma unparseable_payload_is_dropped_witness :
  let msg := {| Server.topic := "sensors/distance"; Server.payload := "12,5cm" |} in
  fst (Server.on_message Decimal.float msg Server.world_init) = Ok tt
  /\ Server.srv (snd (Server.on_message Decimal.float msg Server.world_init))
     = Server.srv Server.world_init
  /\ Server.audio (snd (Server.on_message Decimal.float msg Server.world_init))
     = Server.audio Server.world_init
  /\ Server.out (snd (Server.on_message Decimal.float msg Server.world_init))
     = Server.out Server.world_init ++ [Server.Print_error ValueError].
Proof.
  apply (unparseable_payload_is_dropped Decimal.float Server.world_init
           {| Server.topic := "sensors/distance"; Server.payload := "12,5cm" |}
           ValueError).
  reflexivity.
Defined.

(** The payload is parsed before the topic is looked at: a status text
    that is not a number is dropped in the same way. *)
Example status_text_is_dropped :
  Server.on_message Decimal.float
    {| Server.topic := "control/status"; Server.payload := "online" |} Server.world_init
  = (Ok tt,
     {| Server.srv := Server.globals_init;
        Server.audio := AudioEngine.globals_init;
        Server.out := [Server.Print_error ValueError] |}).
Proof. reflexivity. Qed.

(** C10.  When the payload denotes a distance in a tolerance band
    ([25 < d <= 27], clamped to 25, or [0 <= d < 2], clamped to 2), the
    handler stores the clamped value, not [d], and sends it in its
    [audio_state]; until the next distance message every [audio_state] and
    [sensor_update] broadcast carries the clamped value. *)
Theorem tolerance_band_distance_is_clamped
        (py_float : string -> result Q) (w : Server.world) (p : string)
        (d clamped : Q) (later : list Server.event) (now : Q) :
  py_float p = Ok d ->
  (25 < d <= 27 /\ clamped = 25) \/ (0 <= d < 2 /\ clamped = 2) ->
  Forall (fun ev => ~ is_distance_message ev) later ->
  let w1 := Server.step py_float
              (Server.Message {| Server.topic := "sensors/distance";
                                 Server.payload := p |}) w in
  let w2 := Server.run py_float later w1 in
  ~ clamped == d
  /\ Server.current_distance (Server.srv w1) = clamped
  /\ (exists frequency,
         Server.out w1
         = (Server.out w
            ++ [Server.Print_playing frequency
                  (Server.current_volume (Server.srv w)) clamped])
           ++ [Server.Emit_audio_state frequency
                 (Server.current_volume (Server.srv w)) clamped true])
  /\ Server.current_distance (Server.srv w2) = clamped
  /\ (exists broadcasts,
         Server.out w2 = Server.out w1 ++ broadcasts
         /\ Forall (reports clamped) broadcasts)
  /\ Server.out (Server.step py_float (Server.Tick now) w2)
     = Server.out w2
       ++ [Server.Emit_sensor_update clamped (Server.current_volume (Server.srv w2)) now]
  /\ Server.out (Server.step py_float Server.Connect w2)
     = (Server.out w2 ++ [Server.Print_connected])
       ++ [Server.Emit_audio_state
             (Server.current_frequency (Server.srv w2))
             (Server.current_volume (Server.srv w2))
             clamped
             (Server.is_playing (Server.srv w2))].
Proof.
  intros Hp Hband Hlater w1 w2.
  assert (Hw1 : exists frequency, w1 = after_distance w clamped frequency true).
  { subst w1. cbn [Server.step]. fold (on_distance py_float p w).
    destruct Hband as [[[Hlo Hhi] ->] | [[Hlo Hhi] ->]].
    - exists (Server.frequency_of (Server.normalized_of 25)).
      apply (on_distance_upper_band py_float w p d Hp).
      + unfold Server.DISTANCE_MIN, Server.DISTANCE_MAX. lra.
      + unfold Server.DISTANCE_MAX, Server.BUFFER_MAX. lra.
    - exists (Server.frequency_of (Server.normalized_of 2)).
      apply (on_distance_lower_band py_float w p d Hp).
      + unfold Server.DISTANCE_MIN, Server.DISTANCE_MAX. lra.
      + unfold Server.DISTANCE_MAX, Server.BUFFER_MAX. lra.
      + unfold Server.DISTANCE_MIN, Server.BUFFER_MIN. lra. }
  destruct Hw1 as [frequency Hw1].
  assert (Hd1 : Server.current_distance (Server.srv w1) = clamped)
    by (rewrite Hw1; reflexivity).
  destruct (run_keeps_distance py_float later w1 Hlater) as [Hd2 [tail [Ho2 Hr2]]].
  fold w2 in Hd2, Ho2. rewrite Hd1 in Hd2, Hr2.
  split.
  { destruct Hband as [[[Hlo Hhi] ->] | [[Hlo Hhi] ->]]; lra. }
  split; [exact Hd1 |].
  split; [exists frequency; rewrite Hw1; reflexivity |].
  split; [exact Hd2 |].
  split; [exists tail; split; assumption |].
  split.
  - cbn [Server.step]. unfold Server.broadcast_sensor_update, Server.mbind, Server.read,
      Server.emit. cbn [snd Server.out]. rewrite Hd2. reflexivity.
  - cbn [Server.step]. unfold Server.handle_connect, Server.broadcast_state, Server.mbind,
      Server.read, Server.emit. cbn [snd Server.out Server.srv]. rewrite Hd2. reflexivity.
Qed.

Lemma tolerance_band_distance_is_clamped_witness :
  let later :=
    [Server.Message {| Server.topic := "sensors/volume"; Server.payload := "0.8" |};
     Server.Tick 1;
     Server.Connect;
     Server.Message {| Server.topic := "control/status"; Server.payload := "up" |}] in
  let w1 := Server.step Decimal.float
              (Server.Message {| Server.topic := "sensors/distance";
                                 Server.payload := "26.5" |}) Server.world_init in
  let w2 := Server.run Decimal.float later w1 in
  ~ 25 == 26.5
  /\ Server.current_distance (Server.srv w1) = 25
  /\ (exists frequency,
         Server.out w1
         = (Server.out Server.world_init
            ++ [Server.Print_playing frequency
                  (Server.current_volume (Server.srv Server.world_init)) 25])
           ++ [Server.Emit_audio_state frequency
                 (Server.current_volume (Server.srv Server.world_init)) 25 true])
  /\ Server.current_distance (Server.srv w2) = 25
  /\ (exists broadcasts,
         Server.out w2 = Server.out w1 ++ broadcasts
         /\ Forall (reports 25) broadcasts)
  /\ Server.out (Server.step Decimal.float (Server.Tick 2) w2)
     = Server.out w2
       ++ [Server.Emit_sensor_update 25 (Server.current_volume (Server.srv w2)) 2]
  /\ Server.out (Server.step Decimal.float Server.Connect w2)
     = (Server.out w2 ++ [Server.Print_connected])
       ++ [Server.Emit_audio_state
             (Server.current_frequency (Server.srv w2))
             (Server.current_volume (Server.srv w2))
             25
             (Server.is_playing (Server.srv w2))].
Proof.
  apply (tolerance_band_distance_is_clamped Decimal.float Server.world_init "26.5"
           26.5 25
           [Server.Message {| Server.topic := "sensors/volume"; Server.payload := "0.8" |};
            Server.Tick 1;
            Server.Connect;
            Server.Message {| Server.topic := "control/status"; Server.payload := "up" |}]
           2).
  - reflexivity.
  - left. split; [split; [reflexivity | discriminate] | reflexivity].
  - repeat constructor; simpl; try discriminate; intros [].
Defined.

(** The same run, evaluated: the received 26.5 appears in no broadcast. *)
Example clamped_run_outputs :
  Server.out
    (Server.run Decimal.float
       [Server.Message {| Server.topic := "sensors/distance"; Server.payload := "26.5" |};
        Server.Message {| Server.topic := "sensors/volume"; Server.payload := "0.8" |};
        Server.Tick 1]
       Server.world_init)
  = [Server.Print_playing (Server.frequency_of (Server.normalized_of 25)) 0.5 25;
     Server.Emit_audio_state (Server.frequency_of (Server.normalized_of 25)) 0.5 25 true;
     Server.Emit_audio_state (Server.frequency_of (Server.normalized_of 25))
                             (inject_Z 0 + inject_Z 8 / inject_Z (10 ^ 1)) 25 true;
     Server.Emit_sensor_update 25 (inject_Z 0 + inject_Z 8 / inject_Z (10 ^ 1)) 1].
Proof. reflexivity. Qed.

(** * The scenario values in binary64

    The values the scenarios name come out the same with rounding: the
    midpoint and the end points of the mapping, the block size, the mean of
    five equal readings; and the two inputs on which C3 and C4 fail do so
    with rounding as well. *)

Section Binary64Scenarios.

Import PrimFloat Binary64.
Local Open Scope float_scope.

Example midpoint_b64 :
  normalized_b64 13.5 = 0.5 /\ frequency_b64 (normalized_b64 13.5) = 640.
Proof. split; reflexivity. Qed.

Example endpoints_b64 :
  frequency_b64 (normalized_b64 2) = 1024 /\ frequency_b64 (normalized_b64 25) = 256.
Proof. split; reflexivity. Qed.

Example chunk_product_b64 : sample_product_b64 0.05 = 2205.
Proof. reflexivity. Qed.

Example five_tens_b64 : filtered_b64 [10; 10; 10; 10; 10] 5 = 10.
Proof. reflexivity. Qed.

(** The product for 0.00004 s lies strictly between 1.5 and 2: [int] gives
    1 and [round] gives 2. *)
Example short_product_b64 :
  (1.5 <? sample_product_b64 0.00004) = true
  /\ (sample_product_b64 0.00004 <? 2) = true.
Proof. split; reflexivity. Qed.

Example volume_2046_b64 : volume_b64 2046 = 2.
Proof. reflexivity. Qed.

End Binary64Scenarios.

(** * Further properties of rpi/sensors.py *)

Section FilterRuns.

Import Sensors.

Lemma filtered_outputs_cons (read : result Q) (rest : list (result Q)) (buf : list Q) :
  filtered_outputs (read :: rest) buf
  = snd (get_filtered_distance read buf)
    :: filtered_outputs rest (fst (get_filtered_distance read buf)).
Proof.
  cbn [filtered_outputs]. destruct (get_filtered_distance read buf). reflexivity.
Qed.

Lemma filtered_outputs_app (r1 r2 : list (result Q)) (buf : list Q) :
  filtered_outputs (r1 ++ r2) buf
  = filtered_outputs r1 buf ++ filtered_outputs r2 (buffer_after r1 buf).
Proof.
  revert buf; induction r1 as [|r r1 IH]; intros buf; [reflexivity |].
  rewrite <- app_comm_cons, !filtered_outputs_cons, IH. reflexivity.
Qed.

Lemma length_deque_append (d : list Q) (x : Q) :
  (List.length d <= FILTER_WINDOW_SIZE)%nat ->
  (List.length (deque_append FILTER_WINDOW_SIZE d x) <= FILTER_WINDOW_SIZE)%nat.
Proof.
  unfold deque_append, FILTER_WINDOW_SIZE. intros H.
  destruct (Nat.ltb_spec 5 (List.length (d ++ [x]))) as [Hl | Hl]; [| exact Hl].
  rewrite length_app in Hl. simpl in Hl.
  destruct d as [|a d]; simpl in *; [lia |]. rewrite length_app. simpl. lia.
Qed.

Lemma length_buffer_after (reads : list (result Q)) (buf : list Q) :
  (List.length buf <= FILTER_WINDOW_SIZE)%nat ->
  (List.length (buffer_after reads buf) <= FILTER_WINDOW_SIZE)%nat.
Proof.
  revert buf; induction reads as [|r reads IH]; intros buf H; [exact H |].
  unfold buffer_after. cbn [fold_left]. apply IH.
  destruct r as [x | e]; [| exact H].
  rewrite get_filtered_distance_ok. apply length_deque_append. exact H.
Qed.

(** Five appends push out whatever a full or partial window held. *)
Lemma five_appends (buf : list Q) (a b c d e : Q) :
  (List.length buf <= FILTER_WINDOW_SIZE)%nat ->
  deque_append FILTER_WINDOW_SIZE
    (deque_append FILTER_WINDOW_SIZE
       (deque_append FILTER_WINDOW_SIZE
          (deque_append FILTER_WINDOW_SIZE
             (deque_append FILTER_WINDOW_SIZE buf a) b) c) d) e
  = [a; b; c; d; e].
Proof.
  unfold FILTER_WINDOW_SIZE. intros H.
  destruct buf as [|b1 [|b2 [|b3 [|b4 [|b5 [|b6 buf]]]]]]; try reflexivity.
  simpl in H. lia.
Qed.

Lemma last_app_cons {A : Type} (l : list A) (x : A) (l2 : list A) (d : A) :
  last (l ++ x :: l2) d = last (x :: l2) d.
Proof.
  induction l as [|a l IH]; [reflexivity |].
  rewrite <- app_comm_cons. cbn [last].
  destruct (l ++ x :: l2) eqn:E; [| exact IH].
  exfalso. symmetry in E. apply (app_cons_not_nil l l2 x E).
Qed.

Lemma sum_bounds (lo hi : Q) (xs : list Q) :
  Forall (fun x => lo <= x <= hi) xs ->
  lo * Py.len xs <= Py.sum xs /\ Py.sum xs <= hi * Py.len xs.
Proof.
  unfold Py.sum, Py.len. intros H. rewrite sum_from.
  induction H as [|x xs [Hx1 Hx2] Hxs [IH1 IH2]].
  - simpl. change (inject_Z 0) with 0. split; lra.
  - cbn [fold_right List.length]. rewrite Nat2Z.inj_succ. unfold Z.succ.
    rewrite inject_Z_plus. change (inject_Z 1) with 1. split; lra.
Qed.

Lemma mean_bounds (lo hi : Q) (xs : list Q) :
  (0 < List.length xs)%nat ->
  Forall (fun x => lo <= x <= hi) xs ->
  lo <= Py.sum xs / Py.len xs <= hi.
Proof.
  intros Hn H. destruct (sum_bounds lo hi xs H) as [H1 H2].
  assert (Hpos : 0 < Py.len xs).
  { unfold Py.len. change 0 with (inject_Z 0). rewrite <- Zlt_Qlt. lia. }
  split.
  - apply Qle_shift_div_l; assumption.
  - apply Qle_shift_div_r; assumption.
Qed.

Lemma deque_append_within (lo hi : Q) (maxlen : nat) (d : list Q) (x : Q) :
  Forall (fun y => lo <= y <= hi) d -> lo <= x <= hi ->
  Forall (fun y => lo <= y <= hi) (deque_append maxlen d x).
Proof.
  intros Hd Hx. unfold deque_append.
  assert (H : Forall (fun y => lo <= y <= hi) (d ++ [x])).
  { apply Forall_app. split; [exact Hd | constructor; [exact Hx | constructor]]. }
  destruct (maxlen <? List.length (d ++ [x]))%nat; [| exact H].
  destruct (d ++ [x]) as [|y l]; [constructor |]. simpl. inversion H; assumption.
Qed.

End FilterRuns.

(** X1.  A failed distance read returns [None] and does not touch the
    window: the readings a run returns, and the buffer it leaves, are those
    of the successful reads alone. *)
Theorem failed_reads_leave_filter_alone (reads : list (result Q)) (buf : list Q) :
  Forall2 (fun read out =>
             is_reading out = match read with Ok _ => true | Raise _ => false end)
          reads (Sensors.filtered_outputs reads buf)
  /\ filter is_reading (Sensors.filtered_outputs reads buf)
     = Sensors.filtered_outputs (map Ok (successes reads)) buf
  /\ buffer_after reads buf = buffer_after (map Ok (successes reads)) buf.
Proof.
  revert buf; induction reads as [|r reads IH]; intros buf.
  - repeat split. constructor.
  - rewrite filtered_outputs_cons. destruct r as [x | e].
    + rewrite get_filtered_distance_ok. cbn [fst snd].
      destruct (IH (Sensors.deque_append Sensors.FILTER_WINDOW_SIZE buf x)) as [H1 [H2 H3]].
      split; [constructor; [reflexivity | exact H1] |].
      cbn [successes map filter is_reading].
      rewrite filtered_outputs_cons, get_filtered_distance_ok. cbn [fst snd].
      split; [rewrite H2; reflexivity |].
      unfold buffer_after in *. cbn [fold_left].
      rewrite !get_filtered_distance_ok. cbn [fst]. exact H3.
    + cbn [Sensors.get_filtered_distance fst snd].
      destruct (IH buf) as [H1 [H2 H3]].
      split; [constructor; [reflexivity | exact H1] |].
      cbn [successes filter is_reading]. split; [exact H2 |].
      unfold buffer_after in *. cbn [fold_left Sensors.get_filtered_distance fst]. exact H3.
Qed.

(** X2.  The filter never overshoots: when the buffer and every sample read
    lie in [[lo, hi]], so does every reading it returns. *)
Theorem filtered_distance_within_samples
        (lo hi : Q) (reads : list (result Q)) (buf : list Q) :
  Forall (fun x => lo <= x <= hi) buf ->
  Forall (sample_within lo hi) reads ->
  Forall (reading_within lo hi) (Sensors.filtered_outputs reads buf).
Proof.
  intros Hbuf Hreads; revert buf Hbuf.
  induction Hreads as [|r reads Hr Hreads IH]; intros buf Hbuf; [constructor |].
  rewrite filtered_outputs_cons. destruct r as [x | e].
  - rewrite get_filtered_distance_ok. cbn [fst snd].
    pose proof (deque_append_within lo hi Sensors.FILTER_WINDOW_SIZE buf x Hbuf Hr) as Hw.
    constructor; [| apply IH; exact Hw].
    cbn [reading_within]. apply mean_bounds; [| exact Hw].
    apply deque_append_nonempty. unfold Sensors.FILTER_WINDOW_SIZE. lia.
  - cbn [Sensors.get_filtered_distance fst snd].
    constructor; [exact I | apply IH; exact Hbuf].
Qed.

Lemma filtered_distance_within_samples_witness :
  Forall (reading_within 4 42)
         (Sensors.filtered_outputs [Ok 4; Raise IOError; Ok 42; Ok 10]
                                   Sensors.distance_buffer_init).
Proof.
  apply (filtered_distance_within_samples 4 42 [Ok 4; Raise IOError; Ok 42; Ok 10]
           Sensors.distance_buffer_init).
  - constructor.
  - repeat constructor; discriminate.
Defined.

(** X3.  The filter forgets: after five successful reads in a row the
    reading is the mean of those five samples, whatever was read before,
    failures included. *)
Theorem five_reads_fix_the_output (earlier : list (result Q)) (a b c d e : Q) :
  exists y,
    last (Sensors.filtered_outputs (earlier ++ map Ok [a; b; c; d; e])
                                   Sensors.distance_buffer_init) None
    = Some y
    /\ y == (a + b + c + d + e) / 5.
Proof.
  rewrite filtered_outputs_app.
  pose proof (length_buffer_after earlier Sensors.distance_buffer_init) as Hlen.
  set (buf := buffer_after earlier Sensors.distance_buffer_init) in *.
  assert (Hb : (List.length buf <= Sensors.FILTER_WINDOW_SIZE)%nat).
  { apply Hlen. simpl. unfold Sensors.FILTER_WINDOW_SIZE. lia. }
  cbn [map].
  rewrite !filtered_outputs_cons, !get_filtered_distance_ok. cbn [fst snd].
  rewrite (five_appends buf a b c d e Hb).
  cbn [Sensors.filtered_outputs].
  rewrite last_app_cons. cbn [last].
  eexists. split; [reflexivity |].
  unfold Py.sum, Py.len. simpl. field.
Qed.

(** X4.  A pass of the loop of [main] publishes exactly when both reads of
    that pass succeeded, and the distance it publishes is the reading of the
    filter over all distance reads so far: a pass whose potentiometer read
    failed publishes nothing but its distance sample stays in the window. *)
Theorem main_loop_publications (reads : list (result Q * result Z)) (buf : list Q) :
  Sensors.main_loop reads buf
  = map (fun p => published_for (fst p) (snd p))
        (combine (Sensors.filtered_outputs (map fst reads) buf) (map snd reads)).
Proof.
  revert buf; induction reads as [|[rd rv] reads IH]; intros buf; [reflexivity |].
  cbn [Sensors.main_loop map fst snd]. rewrite filtered_outputs_cons.
  unfold Sensors.main_iteration.
  destruct (Sensors.get_filtered_distance rd buf) as [buf' d]. cbn [fst snd combine map].
  rewrite <- IH. unfold published_for.
  destruct d as [d |]; destruct (Sensors.get_volume rv) as [v |]; reflexivity.
Qed.

(** A failed potentiometer read in the second pass: nothing is published
    there, and the third pass publishes the mean of all three distances. *)
Example main_loop_volume_failure :
  Sensors.main_loop [(Ok 10, Ok 512%Z); (Ok 20, Raise IOError); (Ok 30, Ok 1023%Z)]
                    Sensors.distance_buffer_init
  = [[Sensors.Publish "sensors/distance" ((0 + 10) / inject_Z 1);
      Sensors.Publish "sensors/volume" (inject_Z 512 / 1023)];
     [];
     [Sensors.Publish "sensors/distance" ((0 + 10 + 20 + 30) / inject_Z 3);
      Sensors.Publish "sensors/volume" (inject_Z 1023 / 1023)]].
Proof. reflexivity. Qed.

(** * Further properties of server/audio_engine.py *)

Section BufferEdges.

Import AudioEngine.

Lemma int_at_most_minus_one (x : Q) : x <= -1 -> (Py.int x < 0)%Z.
Proof.
  destruct x as [n d]. unfold Qle, Py.int. simpl. intros H.
  assert (Hq : (Z.quot n (Z.pos d) <= Z.quot (- Z.pos d) (Z.pos d))%Z).
  { apply Z.quot_le_mono; lia. }
  rewrite Z.quot_opp_l, Z.quot_same in Hq by lia. lia.
Qed.

Lemma int_small (x : Q) : -1 < x -> x < 1 -> Py.int x = 0%Z.
Proof.
  destruct x as [n d]. unfold Qlt, Py.int. simpl. intros H1 H2.
  destruct (Z.lt_ge_cases n 0) as [Hn | Hn].
  - assert (Hq : Z.quot (- n) (Z.pos d) = 0%Z) by (apply Z.quot_small; lia).
    pose proof (Z.quot_opp_l (- n) (Z.pos d)) as Ho.
    rewrite Z.opp_involutive in Ho. rewrite Ho, Hq by lia. reflexivity.
  - apply Z.quot_small. lia.
Qed.

Lemma linspace0_negative (stop : Q) (num : Z) :
  (num < 0)%Z -> linspace0 stop num = Raise ValueError.
Proof.
  intros H. unfold linspace0. destruct (Z.ltb_spec num 0); [reflexivity | lia].
Qed.

(** The first point of the time array is 0. *)
Lemma linspace0_head (stop : Q) (num : Z) :
  (1 <= num)%Z ->
  exists t0 t, linspace0 stop num = Ok (t0 :: t) /\ Q2R t0 = 0%R.
Proof.
  intros H. unfold linspace0. destruct (Z.ltb_spec num 0); [lia |].
  destruct (Z.to_nat num) as [|m] eqn:E; [lia |].
  cbn [seq map]. eexists. eexists. split; [reflexivity |].
  rewrite Q2R_mult. change (inject_Z (Z.of_nat 0)) with 0.
  rewrite RMicromega.Q2R_0. ring.
Qed.

Lemma add_harmonic_starts_at_zero (frequency t0 : Q) (t : list Q) (w : list R) (h : Q * Q) :
  Q2R t0 = 0%R -> starts_at_zero w -> starts_at_zero (add_harmonic frequency (t0 :: t) w h).
Proof.
  intros Ht [s [rest [-> ->]]]. destruct h as [m a]. unfold add_harmonic.
  cbn [map vadd]. eexists. eexists. split; [reflexivity |].
  rewrite Ht, Rmult_0_r, sin_0. ring.
Qed.

Lemma harmonics_start_at_zero (frequency t0 : Q) (t : list Q) (hs : list (Q * Q))
      (w : list R) :
  Q2R t0 = 0%R -> starts_at_zero w ->
  starts_at_zero (fold_left (add_harmonic frequency (t0 :: t)) hs w).
Proof.
  intros Ht; revert w; induction hs as [|h hs IH]; intros w Hw; [exact Hw |].
  cbn [fold_left]. apply IH. apply add_harmonic_starts_at_zero; assumption.
Qed.

Lemma length_take_every {A : Type} (s k : nat) (a : list A) :
  (k <= s)%nat ->
  List.length (take_every (S s) k a) = ((List.length a + s - k) / S s)%nat.
Proof.
  revert k; induction a as [|x a IH]; intros k Hk.
  - cbn [take_every List.length]. symmetry. apply Nat.div_small. lia.
  - destruct k as [|k]; cbn [take_every List.length].
    + replace (S s - 1)%nat with s by lia. rewrite IH by lia.
      replace (S (List.length a) + s - 0)%nat with (List.length a + 1 * S s)%nat by lia.
      rewrite Nat.div_add by lia.
      replace (List.length a + s - s)%nat with (List.length a) by lia. lia.
    + rewrite IH by lia. reflexivity.
Qed.

Lemma take_every_Forall {A : Type} (P : A -> Prop) (step k : nat) (a : list A) :
  Forall P a -> Forall P (take_every step k a).
Proof.
  intros H; revert k; induction H as [|x a Hx Ha IH]; intros k; [constructor |].
  destruct k; cbn [take_every]; [constructor; [exact Hx | apply IH] | apply IH].
Qed.

Lemma within_zeros (B : R) (n : nat) : (0 <= B)%R -> within B (repeat 0%R n).
Proof.
  intros HB. unfold within. apply Forall_forall. intros x Hx.
  apply repeat_spec in Hx. subst x. rewrite Rabs_R0. exact HB.
Qed.

Lemma assign_column_within (B : R) (outdata chunk out : list R) :
  within B chunk -> assign_column outdata chunk = Ok out -> within B out.
Proof.
  intros Hc. unfold assign_column.
  destruct (List.length chunk =? List.length outdata)%nat.
  - intros H; injection H as <-. exact Hc.
  - destruct chunk as [|x [|y chunk]]; try discriminate.
    intros H; injection H as <-.
    unfold within in *. apply Forall_forall. intros z Hz.
    apply repeat_spec in Hz. subst z. inversion Hc; assumption.
Qed.

Lemma handler_writes_zeros_bind {A : Type} (outdata : list R) (frames : Z)
      (k : list R -> result A) :
  Z.of_nat (List.length outdata) = frames ->
  (z <- zeros frames ;; outdata' <- assign_column outdata z ;; k outdata')
  = k (repeat 0%R (Z.to_nat frames)).
Proof.
  intros H. pose proof (handler_writes_zeros outdata frames H) as Hh.
  destruct (zeros frames) as [z | e]; cbn [Py.bind] in *; [| discriminate].
  rewrite Hh. reflexivity.
Qed.

(** The chunk the [try] block asks for always has [CHUNK_SIZE] samples. *)
Lemma callback_chunk (g : globals) :
  exists chunk,
    (if is_playing g && negb (Qle_bool (current_frequency g) 0)
     then generate_tone (current_frequency g) (current_volume g) CHUNK_DURATION
     else generate_silence CHUNK_DURATION) = Ok chunk
    /\ List.length chunk = Z.to_nat CHUNK_SIZE
    /\ (0 <= current_volume g -> within (Q2R (current_volume g)) chunk).
Proof.
  destruct (is_playing g && negb (Qle_bool (current_frequency g) 0)).
  - destruct (generate_tone_length (current_frequency g) (current_volume g)
                CHUNK_DURATION CHUNK_DURATION_positive) as [tone [Ht Hl]].
    exists tone. split; [exact Ht |]. split; [exact Hl |].
    intros Hv. apply (generate_tone_within _ _ _ _ Hv Ht).
  - rewrite (generate_silence_ok CHUNK_DURATION CHUNK_DURATION_positive).
    eexists. split; [reflexivity |]. split; [apply repeat_length |].
    intros Hv. apply within_zeros.
    apply Qle_Rle in Hv. rewrite RMicromega.Q2R_0 in Hv. exact Hv.
Qed.

End BufferEdges.

(** X5.  A duration that gives less than one sample: when
    [SAMPLE_RATE * duration <= -1] the sample count is negative and both
    generators raise [ValueError]; otherwise the count truncates to 0 and
    both return an empty buffer. *)
Theorem short_duration_buffers (frequency volume duration : Q) :
  AudioEngine.SAMPLE_RATE * duration < 1 ->
  AudioEngine.generate_tone frequency volume duration
  = (if Qle_bool (AudioEngine.SAMPLE_RATE * duration) (-1)
     then Raise ValueError else Ok [])
  /\ AudioEngine.generate_silence duration
     = (if Qle_bool (AudioEngine.SAMPLE_RATE * duration) (-1)
        then Raise ValueError else Ok []).
Proof.
  intros Hlt.
  destruct (Qle_bool (AudioEngine.SAMPLE_RATE * duration) (-1)) eqn:E.
  - apply Qle_bool_iff in E. apply int_at_most_minus_one in E.
    unfold AudioEngine.generate_tone, AudioEngine.generate_silence, AudioEngine.zeros.
    rewrite (linspace0_negative duration _ E).
    destruct (Z.ltb_spec (Py.int (AudioEngine.SAMPLE_RATE * duration)) 0); [| lia].
    split; reflexivity.
  - assert (Hgt : -1 < AudioEngine.SAMPLE_RATE * duration).
    { apply Qnot_le_lt. intros H. apply Qle_bool_iff in H. congruence. }
    unfold AudioEngine.generate_tone, AudioEngine.generate_silence.
    rewrite (int_small _ Hgt Hlt). split; reflexivity.
Qed.

Lemma short_duration_buffers_witness :
  AudioEngine.generate_tone 440 0.5 (-1)
  = (if Qle_bool (AudioEngine.SAMPLE_RATE * (-1)) (-1) then Raise ValueError else Ok [])
  /\ AudioEngine.generate_silence (-1)
     = (if Qle_bool (AudioEngine.SAMPLE_RATE * (-1)) (-1) then Raise ValueError else Ok []).
Proof.
  apply (short_duration_buffers 440 0.5 (-1)). reflexivity.
Defined.

(** X6.  Every tone buffer starts at phase zero: whenever the duration
    gives at least one sample, the first sample of [generate_tone] is 0,
    whatever the frequency and the volume. *)
Theorem tone_starts_at_zero (frequency volume duration : Q) :
  1 <= AudioEngine.SAMPLE_RATE * duration ->
  exists tone,
    AudioEngine.generate_tone frequency volume duration = Ok tone
    /\ starts_at_zero tone.
Proof.
  intros H1.
  assert (Hn : (1 <= Py.int (AudioEngine.SAMPLE_RATE * duration))%Z).
  { rewrite int_nonneg by lra.
    change 1%Z with (Qfloor 1). apply Qfloor_resp_le. exact H1. }
  unfold AudioEngine.generate_tone.
  destruct (linspace0_head duration _ Hn) as [t0 [t [Ht H0]]].
  rewrite Ht. cbn [Py.bind]. eexists. split; [reflexivity |].
  assert (Hz : starts_at_zero (AudioEngine.zeros_like (t0 :: t))).
  { eexists. eexists. split; reflexivity. }
  pose proof (harmonics_start_at_zero frequency t0 t AudioEngine.HARMONIC_RATIOS _ H0 Hz)
    as [s [rest [Hw ->]]].
  rewrite Hw. cbn [map]. eexists. eexists. split; [reflexivity |].
  unfold Rdiv. ring.
Qed.

Lemma tone_starts_at_zero_witness :
  exists tone,
    AudioEngine.generate_tone 440 0.5 AudioEngine.CHUNK_DURATION = Ok tone
    /\ starts_at_zero tone.
Proof.
  apply (tone_starts_at_zero 440 0.5 AudioEngine.CHUNK_DURATION). discriminate.
Defined.

(** X7.  The volume is a plain factor: the tone at volume [v] is the tone at
    volume 1 with every sample multiplied by [v]; at volume 0 every sample
    is 0. *)
Theorem tone_scales_with_volume (frequency volume duration : Q) :
  0 < duration ->
  exists unit_tone,
    AudioEngine.generate_tone frequency 1 duration = Ok unit_tone
    /\ AudioEngine.generate_tone frequency volume duration
       = Ok (map (fun s => (s * Q2R volume)%R) unit_tone)
    /\ (volume == 0 ->
        exists tone,
          AudioEngine.generate_tone frequency volume duration = Ok tone
          /\ Forall (fun s => s = 0%R) tone).
Proof.
  intros Hd.
  destruct (generate_tone_length frequency 1 duration Hd) as [unit_tone [Hu _]].
  exists unit_tone. split; [exact Hu |].
  assert (Hv : AudioEngine.generate_tone frequency volume duration
               = Ok (map (fun s => (s * Q2R volume)%R) unit_tone)).
  { revert Hu. unfold AudioEngine.generate_tone.
    destruct (AudioEngine.linspace0 duration _) as [t | e]; cbn [Py.bind]; [| discriminate].
    intros H; injection H as <-. f_equal. rewrite !map_map. apply map_ext.
    intros x. unfold AudioEngine.HARMONIC_RATIOS. cbn [map snd].
    rewrite RMicromega.Q2R_1. ring. }
  split; [exact Hv |].
  intros H0. eexists. split; [exact Hv |].
  apply Forall_forall. intros s Hs. apply in_map_iff in Hs. destruct Hs as [x [<- _]].
  apply Qeq_eqR in H0. rewrite H0, RMicromega.Q2R_0. ring.
Qed.

Lemma tone_scales_with_volume_witness :
  exists unit_tone,
    AudioEngine.generate_tone 440 1 AudioEngine.CHUNK_DURATION = Ok unit_tone
    /\ AudioEngine.generate_tone 440 0.5 AudioEngine.CHUNK_DURATION
       = Ok (map (fun s => (s * Q2R 0.5)%R) unit_tone)
    /\ (0.5 == 0 ->
        exists tone,
          AudioEngine.generate_tone 440 0.5 AudioEngine.CHUNK_DURATION = Ok tone
          /\ Forall (fun s => s = 0%R) tone).
Proof.
  apply (tone_scales_with_volume 440 0.5 AudioEngine.CHUNK_DURATION). reflexivity.
Defined.

(** X8.  With the gate on, a positive frequency and the block size of the
    stream, [audio_callback] hands out exactly the buffer
    [generate_tone(current_frequency, current_volume, CHUNK_DURATION)] and
    prints no error. *)
Theorem callback_plays_the_tone
        (g : AudioEngine.globals) (outdata : list R) (status : bool) :
  AudioEngine.is_playing g = true ->
  0 < AudioEngine.current_frequency g ->
  List.length outdata = Z.to_nat AudioEngine.CHUNK_SIZE ->
  exists tone,
    AudioEngine.generate_tone (AudioEngine.current_frequency g)
                              (AudioEngine.current_volume g)
                              AudioEngine.CHUNK_DURATION = Ok tone
    /\ AudioEngine.audio_callback g outdata AudioEngine.CHUNK_SIZE status
       = Ok (tone, if status then ["Audio callback status"%string] else []).
Proof.
  intros Hp Hf Hl.
  destruct (generate_tone_length (AudioEngine.current_frequency g)
              (AudioEngine.current_volume g) AudioEngine.CHUNK_DURATION
              CHUNK_DURATION_positive) as [tone [Ht Hlt]].
  exists tone. split; [exact Ht |].
  unfold AudioEngine.audio_callback, AudioEngine.audio_callback_with,
    AudioEngine.audio_callback_try.
  assert (Hgate : Qle_bool (AudioEngine.current_frequency g) 0 = false).
  { destruct (Qle_bool (AudioEngine.current_frequency g) 0) eqn:E; [| reflexivity].
    apply Qle_bool_iff in E. lra. }
  rewrite Hp, Hgate. cbn [andb negb]. rewrite Ht. cbn [Py.bind].
  rewrite assign_column_same_length by (rewrite Hlt, Hl; reflexivity). reflexivity.
Qed.

Lemma callback_plays_the_tone_witness :
  exists tone,
    AudioEngine.generate_tone 440 0.5 AudioEngine.CHUNK_DURATION = Ok tone
    /\ AudioEngine.audio_callback
         {| AudioEngine.current_frequency := 440;
            AudioEngine.current_volume := 0.5;
            AudioEngine.is_playing := true |}
         (repeat 0%R 2205) AudioEngine.CHUNK_SIZE false
       = Ok (tone, if false then ["Audio callback status"%string] else []).
Proof.
  apply (callback_plays_the_tone
           {| AudioEngine.current_frequency := 440;
              AudioEngine.current_volume := 0.5;
              AudioEngine.is_playing := true |}
           (repeat 0%R 2205) false).
  - reflexivity.
  - reflexivity.
  - rewrite repeat_length. reflexivity.
Defined.

(** X9.  A block of any other size is muted: when [frames] is not
    [CHUNK_SIZE], the copy into [outdata] raises [ValueError] and the
    callback writes zeros and prints the error, gate on or off. *)
Theorem callback_mutes_other_block_sizes
        (g : AudioEngine.globals) (outdata : list R) (frames : Z) (status : bool) :
  Z.of_nat (List.length outdata) = frames ->
  frames <> AudioEngine.CHUNK_SIZE ->
  AudioEngine.audio_callback g outdata frames status
  = Ok (repeat 0%R (Z.to_nat frames),
        (if status then ["Audio callback status"%string] else [])
        ++ ["Error in audio callback: ValueError"%string]).
Proof.
  intros Hf Hne.
  destruct (callback_chunk g) as [chunk [Hc [Hl _]]].
  unfold AudioEngine.audio_callback.
  apply (callback_failure_is_silence _ _ g outdata frames status ValueError Hf).
  unfold AudioEngine.audio_callback_try. rewrite Hc. cbn [Py.bind].
  apply assign_column_mismatch.
  - rewrite Hl. intros H. apply Hne. rewrite <- Hf, <- H, CHUNK_SIZE_value. reflexivity.
  - rewrite Hl, CHUNK_SIZE_value. discriminate.
Qed.

Lemma callback_mutes_other_block_sizes_witness :
  AudioEngine.audio_callback
    {| AudioEngine.current_frequency := 440;
       AudioEngine.current_volume := 0.5;
       AudioEngine.is_playing := true |}
    (repeat 1%R 1024) 1024 false
  = Ok (repeat 0%R (Z.to_nat 1024),
        (if false then ["Audio callback status"%string] else [])
        ++ ["Error in audio callback: ValueError"%string]).
Proof.
  apply (callback_mutes_other_block_sizes
           {| AudioEngine.current_frequency := 440;
              AudioEngine.current_volume := 0.5;
              AudioEngine.is_playing := true |}
           (repeat 1%R 1024) 1024 false).
  - rewrite repeat_length. reflexivity.
  - discriminate.
Defined.

(** X10.  The callback never exceeds the volume: for a non-negative
    [current_volume], whatever the other parameters, the block it writes has
    [frames] samples, each of absolute value at most [current_volume]. *)
Theorem callback_output_within_volume
        (g : AudioEngine.globals) (outdata : list R) (frames : Z) (status : bool) :
  0 <= AudioEngine.current_volume g ->
  Z.of_nat (List.length outdata) = frames ->
  exists out printed,
    AudioEngine.audio_callback g outdata frames status = Ok (out, printed)
    /\ List.length out = Z.to_nat frames
    /\ within (Q2R (AudioEngine.current_volume g)) out.
Proof.
  intros Hv Hf.
  destruct (audio_callback_returns g outdata frames status Hf) as [out [printed [Hcb Hl]]].
  exists out, printed. split; [exact Hcb |]. split; [exact Hl |].
  assert (Hv' : (0 <= Q2R (AudioEngine.current_volume g))%R).
  { apply Qle_Rle in Hv. rewrite RMicromega.Q2R_0 in Hv. exact Hv. }
  destruct (callback_chunk g) as [chunk [Hc [_ Hw]]].
  revert Hcb. unfold AudioEngine.audio_callback, AudioEngine.audio_callback_with.
  destruct (AudioEngine.audio_callback_try AudioEngine.generate_tone
              AudioEngine.generate_silence g outdata) as [o | e] eqn:Htry.
  - intros H; injection H as <- _.
    unfold AudioEngine.audio_callback_try in Htry. rewrite Hc in Htry.
    cbn [Py.bind] in Htry. apply (assign_column_within _ outdata chunk o (Hw Hv) Htry).
  - rewrite (handler_writes_zeros_bind outdata frames _ Hf).
    intros H; injection H as <- _. apply within_zeros. exact Hv'.
Qed.

Lemma callback_output_within_volume_witness :
  exists out printed,
    AudioEngine.audio_callback
      {| AudioEngine.current_frequency := 440;
         AudioEngine.current_volume := 0.5;
         AudioEngine.is_playing := true |}
      (repeat 1%R 1024) 1024 false = Ok (out, printed)
    /\ List.length out = Z.to_nat 1024
    /\ within (Q2R 0.5) out.
Proof.
  apply (callback_output_within_volume
           {| AudioEngine.current_frequency := 440;
              AudioEngine.current_volume := 0.5;
              AudioEngine.is_playing := true |}
           (repeat 1%R 1024) 1024 false).
  - discriminate.
  - rewrite repeat_length. reflexivity.
Defined.

(** X11.  [get_current_waveform] never raises.  With the gate on and a
    positive frequency it returns 45 samples, every twentieth of the 882
    samples of a 20 ms tone, each within the volume; otherwise it returns
    50 zeros. *)
Theorem waveform_for_the_dashboard (g : AudioEngine.globals) :
  0 <= AudioEngine.current_volume g ->
  exists samples,
    AudioEngine.get_current_waveform g = Ok samples
    /\ within (Q2R (AudioEngine.current_volume g)) samples
    /\ (AudioEngine.is_playing g = true /\ 0 < AudioEngine.current_frequency g ->
        List.length samples = 45%nat
        /\ exists tone,
            AudioEngine.generate_tone (AudioEngine.current_frequency g)
                                      (AudioEngine.current_volume g) 0.02 = Ok tone
            /\ List.length tone = 882%nat
            /\ samples = AudioEngine.take_every 20 0 tone)
    /\ (AudioEngine.is_playing g = false \/ AudioEngine.current_frequency g <= 0 ->
        samples = repeat 0%R 50).
Proof.
  intros Hv. unfold AudioEngine.get_current_waveform.
  destruct (AudioEngine.is_playing g
            && negb (Qle_bool (AudioEngine.current_frequency g) 0)) eqn:Egate.
  - apply andb_true_iff in Egate. destruct Egate as [Hp Hq].
    apply negb_true_iff in Hq.
    destruct (generate_tone_length (AudioEngine.current_frequency g)
                (AudioEngine.current_volume g) 0.02) as [tone [Ht Hl]]; [reflexivity |].
    rewrite Ht. cbn [Py.bind]. eexists. split; [reflexivity |].
    split; [| split].
    + apply take_every_Forall.
      apply (generate_tone_within _ _ _ _ Hv Ht).
    + intros _. split.
      * rewrite (length_take_every 19 0) by lia. rewrite Hl. reflexivity.
      * exists tone. repeat split. exact Hl.
    + intros [Hoff | Hle].
      * congruence.
      * apply Qle_bool_iff in Hle. congruence.
  - eexists. split; [reflexivity |]. split; [| split].
    + apply within_zeros. apply Qle_Rle in Hv. rewrite RMicromega.Q2R_0 in Hv. exact Hv.
    + intros [Hp Hf]. exfalso.
      rewrite Hp in Egate. cbn [andb] in Egate. apply negb_false_iff in Egate.
      apply Qle_bool_iff in Egate. lra.
    + intros _. reflexivity.
Qed.

Lemma waveform_for_the_dashboard_witness :
  exists samples,
    AudioEngine.get_current_waveform
      {| AudioEngine.current_frequency := 440;
         AudioEngine.current_volume := 0.5;
         AudioEngine.is_playing := true |} = Ok samples
    /\ within (Q2R 0.5) samples
    /\ (true = true /\ 0 < 440 ->
        List.length samples = 45%nat
        /\ exists tone,
            AudioEngine.generate_tone 440 0.5 0.02 = Ok tone
            /\ List.length tone = 882%nat
            /\ samples = AudioEngine.take_every 20 0 tone)
    /\ (true = false \/ 440 <= 0 -> samples = repeat 0%R 50).
Proof.
  apply (waveform_for_the_dashboard
           {| AudioEngine.current_frequency := 440;
              AudioEngine.current_volume := 0.5;
              AudioEngine.is_playing := true |}).
  discriminate.
Defined.

(** * Further properties of server/server.py *)

Ltac exec_server :=
  cbv beta iota zeta delta
    [Server.mbind Server.read Server.assign Server.emit Server.ret Server.eval
     Server.try_except
     Server.set_current_distance Server.set_current_volume
     Server.set_current_frequency Server.set_is_playing
     Server.broadcast_state Server.broadcast_sensor_update Server.update_audio_engine
     Server.handle_connect AudioEngine.update_audio_params
     Server.srv Server.audio Server.out
     Server.current_distance Server.current_volume Server.current_frequency
     Server.is_playing Server.topic Server.payload fst snd].

Section ServerRuns.

Import Server.

Variable py_float : string -> result Q.

(** A parsed message on a topic other than [sensors/distance]: the volume
    topic stores the value, the status topic prints the payload, and in
    every case the state is broadcast and handed to the audio engine. *)
Lemma on_parsed_other_message (w : world) (t p : string) (v : Q) :
  t <> "sensors/distance"%string ->
  py_float p = Ok v ->
  on_message py_float {| topic := t; payload := p |} w
  = (Ok tt,
     let g' := if (t =? "sensors/volume")%string then with_volume (srv w) v else srv w in
     {| srv := g';
        audio := mirror_of g';
        out := (out w
                ++ (if (t =? "sensors/volume")%string then []
                    else if (t =? "control/status")%string then [Print_status p]
                    else []))
               ++ [audio_state_of g'] |}).
Proof.
  intros Ht Hp. apply String.eqb_neq in Ht.
  unfold on_message, on_message_try. exec_server. rewrite Hp, Ht.
  destruct (t =? "sensors/volume")%string; [| destruct (t =? "control/status")%string];
    exec_server; cbv zeta; unfold mirror_of, audio_state_of, with_volume;
    rewrite ?app_nil_r; destruct w as [[dist vol freq pl] a o]; reflexivity.
Qed.

Lemma frequency_in_range (d : Q) :
  2 <= d <= 25 -> 256 <= frequency_of (normalized_of d) <= 1024.
Proof.
  intros [H1 H2]. pose proof (frequency_linear d) as L. split; lra.
Qed.

(** What a distance message with a parsed payload leaves behind. *)
Lemma on_distance_cases (w : world) (p : string) (d : Q) :
  py_float p = Ok d ->
  exists dist freq playing,
    on_distance py_float p w = after_distance w dist freq playing
    /\ (if playing then 256 <= freq <= 1024 /\ 2 <= dist <= 25 else freq == 0).
Proof.
  intros Hp.
  destruct (Qlt_le_dec d 2) as [Hlt2 | Hge2].
  - assert (H1 : ~ (DISTANCE_MIN <= d <= DISTANCE_MAX))
      by (unfold DISTANCE_MIN, DISTANCE_MAX; lra).
    assert (H2 : ~ (DISTANCE_MAX <= d <= BUFFER_MAX))
      by (unfold DISTANCE_MAX, BUFFER_MAX; lra).
    destruct (Qlt_le_dec d 0) as [Hneg | Hpos].
    + exists d, 0, false. split; [| reflexivity].
      apply (on_distance_outside py_float w p d Hp H1 H2).
      unfold BUFFER_MIN, DISTANCE_MIN. lra.
    + exists 2, (frequency_of (normalized_of 2)), true. split.
      * apply (on_distance_lower_band py_float w p d Hp H1 H2).
        unfold BUFFER_MIN, DISTANCE_MIN. lra.
      * split; [apply frequency_in_range |]; lra.
  - destruct (Qlt_le_dec 25 d) as [Hgt25 | Hle25].
    + assert (H1 : ~ (DISTANCE_MIN <= d <= DISTANCE_MAX))
        by (unfold DISTANCE_MIN, DISTANCE_MAX; lra).
      destruct (Qlt_le_dec 27 d) as [Hgt27 | Hle27].
      * exists d, 0, false. split; [| reflexivity].
        apply (on_distance_outside py_float w p d Hp H1).
        -- unfold DISTANCE_MAX, BUFFER_MAX. lra.
        -- unfold BUFFER_MIN, DISTANCE_MIN. lra.
      * exists 25, (frequency_of (normalized_of 25)), true. split.
        -- apply (on_distance_upper_band py_float w p d Hp H1).
           unfold DISTANCE_MAX, BUFFER_MAX. lra.
        -- split; [apply frequency_in_range |]; lra.
    + exists d, (frequency_of (normalized_of d)), true. split.
      * apply (on_distance_in_band py_float w p d Hp).
        unfold DISTANCE_MIN, DISTANCE_MAX. lra.
      * split; [apply frequency_in_range |]; lra.
Qed.

Lemma pitch_in_range_with_volume (g : globals) (v : Q) :
  pitch_in_range g -> pitch_in_range (with_volume g v).
Proof. destruct g as [dist vol freq pl]. exact (fun H => H). Qed.

Lemma engine_mirror_in_range (g : globals) :
  pitch_in_range g -> engine_in_range (mirror_of g).
Proof.
  destruct g as [dist vol freq pl]. unfold pitch_in_range, engine_in_range, mirror_of.
  cbn. intros H Hp. rewrite Hp in H. apply H.
Qed.

(** Every event keeps the pitch in range, in the server and in the engine. *)
Lemma step_keeps_range (ev : event) (w : world) :
  pitch_in_range (srv w) -> engine_in_range (audio w) ->
  pitch_in_range (srv (step py_float ev w))
  /\ engine_in_range (audio (step py_float ev w)).
Proof.
  intros Hs Ha. destruct ev as [[t p] | now |].
  - cbn [step]. destruct (py_float p) as [v | e] eqn:Hp.
    + destruct (string_dec t "sensors/distance") as [-> | Ht].
      * fold (on_distance py_float p w).
        destruct (on_distance_cases w p v Hp) as [dist [freq [pl [-> Hr]]]].
        cbn [after_distance srv audio]. split.
        -- unfold pitch_in_range. cbn. exact Hr.
        -- unfold engine_in_range. cbn. intros ->. apply Hr.
      * rewrite (on_parsed_other_message w t p v Ht Hp). cbn [snd srv audio].
        assert (Hg : pitch_in_range
                       (if (t =? "sensors/volume")%string
                        then with_volume (srv w) v else srv w)).
        { destruct (t =? "sensors/volume")%string;
            [apply pitch_in_range_with_volume |]; exact Hs. }
        split; [exact Hg | apply engine_mirror_in_range; exact Hg].
    + rewrite (on_unparseable py_float w {| topic := t; payload := p |} e Hp).
      cbn [snd srv audio]. split; assumption.
  - cbn [step]. exec_server. split; assumption.
  - cbn [step]. exec_server. split; assumption.
Qed.

Lemma run_keeps_range (evs : list event) (w : world) :
  pitch_in_range (srv w) -> engine_in_range (audio w) ->
  pitch_in_range (srv (run py_float evs w))
  /\ engine_in_range (audio (run py_float evs w)).
Proof.
  revert w; induction evs as [|ev evs IH]; intros w Hs Ha; [split; assumption |].
  cbn [run]. destruct (step_keeps_range ev w Hs Ha) as [Hs' Ha'].
  apply IH; assumption.
Qed.

Lemma after_distance_mirrors (w : world) (dist freq : Q) (playing : bool) :
  mirrors (after_distance w dist freq playing).
Proof. reflexivity. Qed.

(** A parsed message leaves the engine with the server's parameters. *)
Lemma parsed_message_mirrors (w : world) (msg : message) (v : Q) :
  py_float (payload msg) = Ok v ->
  mirrors (step py_float (Message msg) w).
Proof.
  destruct msg as [t p]. cbn [payload step]. intros Hp.
  destruct (string_dec t "sensors/distance") as [-> | Ht].
  - fold (on_distance py_float p w).
    destruct (on_distance_cases w p v Hp) as [dist [freq [pl [-> _]]]].
    apply after_distance_mirrors.
  - rewrite (on_parsed_other_message w t p v Ht Hp). reflexivity.
Qed.

Lemma step_keeps_mirror (ev : event) (w : world) :
  mirrors w -> mirrors (step py_float ev w).
Proof.
  intros Hm. destruct ev as [msg | now |].
  - destruct (py_float (payload msg)) as [v | e] eqn:Hp.
    + apply (parsed_message_mirrors w msg v Hp).
    + cbn [step]. rewrite (on_unparseable py_float w msg e Hp). exact Hm.
  - cbn [step]. exec_server. exact Hm.
  - cbn [step]. exec_server. exact Hm.
Qed.

Lemma run_keeps_mirror (evs : list event) (w : world) :
  mirrors w -> mirrors (run py_float evs w).
Proof.
  revert w; induction evs as [|ev evs IH]; intros w Hm; [exact Hm |].
  cbn [run]. apply IH. apply step_keeps_mirror. exact Hm.
Qed.

End ServerRuns.

(** X12.  Whatever arrives, in whatever order, and whatever the parser
    accepts: started from the initial globals the server is either silent
    with frequency 0, or playing a frequency within [256, 1024] for a stored
    distance within [2, 25]; and the audio engine, when its gate is on,
    holds a frequency within [256, 1024]. *)
Theorem pitch_stays_in_range
        (py_float : string -> result Q) (evs : list Server.event) :
  pitch_in_range (Server.srv (Server.run py_float evs Server.world_init))
  /\ engine_in_range (Server.audio (Server.run py_float evs Server.world_init)).
Proof.
  apply run_keeps_range.
  - reflexivity.
  - intros H. discriminate H.
Qed.

(** X13.  Once a message with a parsable payload has been handled, the
    audio engine holds the server's frequency, volume and gate, and keeps
    doing so after every later message, broadcast tick or browser
    connection. *)
Theorem engine_mirrors_server
        (py_float : string -> result Q) (w : Server.world) (msg : Server.message)
        (v : Q) (later : list Server.event) :
  py_float (Server.payload msg) = Ok v ->
  mirrors (Server.run py_float later (Server.step py_float (Server.Message msg) w)).
Proof.
  intros Hp. apply run_keeps_mirror. apply (parsed_message_mirrors py_float w msg v Hp).
Qed.

Lemma engine_mirrors_server_witness :
  mirrors
    (Server.run Decimal.float
       [Server.Tick 1;
        Server.Message {| Server.topic := "sensors/distance"; Server.payload := "far" |};
        Server.Connect]
       (Server.step Decimal.float
          (Server.Message {| Server.topic := "sensors/volume"; Server.payload := "0.8" |})
          Server.world_init)).
Proof.
  apply (engine_mirrors_server Decimal.float Server.world_init
           {| Server.topic := "sensors/volume"; Server.payload := "0.8" |}
           (inject_Z 0 + inject_Z 8 / inject_Z (10 ^ 1))).
  reflexivity.
Defined.

(** Before the first parsed message the two differ: the engine starts at
    440 Hz, the server at 0. *)
Example initial_globals_differ : ~ mirrors Server.world_init.
Proof. unfold mirrors. cbn. intros H. discriminate H. Qed.

(** X14.  A message on [control/status] never changes the globals of the
    server, and its text is printed exactly when the payload parses as a
    number. *)
Theorem status_printed_only_for_numbers
        (py_float : string -> result Q) (w : Server.world) (msg : Server.message) :
  Server.topic msg = "control/status"%string ->
  Server.srv (snd (Server.on_message py_float msg w)) = Server.srv w
  /\ exists printed,
      Server.out (snd (Server.on_message py_float msg w)) = Server.out w ++ printed
      /\ (In (Server.Print_status (Server.payload msg)) printed
          <-> exists v, py_float (Server.payload msg) = Ok v).
Proof.
  destruct msg as [t p]. cbn [Server.topic Server.payload]. intros ->.
  destruct (py_float p) as [v | e] eqn:Hp.
  - rewrite (on_parsed_other_message py_float w "control/status" p v) by
      (discriminate || exact Hp).
    cbn [snd Server.srv Server.out String.eqb Ascii.eqb Bool.eqb].
    split; [reflexivity |]. rewrite <- app_assoc.
    eexists. split; [reflexivity |]. split.
    + intros _. exists v. reflexivity.
    + intros _. left. reflexivity.
  - rewrite (on_unparseable py_float w {| Server.topic := "control/status";
                                          Server.payload := p |} e Hp).
    cbn [snd Server.srv Server.out]. split; [reflexivity |].
    eexists. split; [reflexivity |]. split.
    + intros [H | []]. discriminate H.
    + intros [v Hv]. discriminate Hv.
Qed.

Lemma status_printed_only_for_numbers_witness :
  let msg := {| Server.topic := "control/status"; Server.payload := "42" |} in
  Server.srv (snd (Server.on_message Decimal.float msg Server.world_init))
  = Server.srv Server.world_init
  /\ exists printed,
      Server.out (snd (Server.on_message Decimal.float msg Server.world_init))
      = Server.out Server.world_init ++ printed
      /\ (In (Server.Print_status (Server.payload msg)) printed
          <-> exists v, Decimal.float (Server.payload msg) = Ok v).
Proof.
  apply (status_printed_only_for_numbers Decimal.float Server.world_init
           {| Server.topic := "control/status"; Server.payload := "42" |}).
  reflexivity.
Defined.

(** X15.  A volume message stores its value as it comes, with no range
    check, and passes it to the audio engine; distance, frequency and gate
    stay, and one [audio_state] with the new volume is sent. *)
Theorem volume_message_passes_through
        (py_float : string -> result Q) (w : Server.world) (msg : Server.message)
        (v : Q) :
  Server.topic msg = "sensors/volume"%string ->
  py_float (Server.payload msg) = Ok v ->
  Server.on_message py_float msg w
  = (Ok tt,
     {| Server.srv := with_volume (Server.srv w) v;
        Server.audio := mirror_of (with_volume (Server.srv w) v);
        Server.out := Server.out w ++ [audio_state_of (with_volume (Server.srv w) v)] |}).
Proof.
  destruct msg as [t p]. cbn [Server.topic Server.payload]. intros -> Hp.
  rewrite (on_parsed_other_message py_float w "sensors/volume" p v) by
    (discriminate || exact Hp).
  cbn [String.eqb Ascii.eqb Bool.eqb]. cbv zeta. rewrite app_nil_r. reflexivity.
Qed.

Lemma volume_message_passes_through_witness :
  Server.on_message Decimal.float
    {| Server.topic := "sensors/volume"; Server.payload := "2" |} Server.world_init
  = (Ok tt,
     {| Server.srv := with_volume (Server.srv Server.world_init) 2;
        Server.audio := mirror_of (with_volume (Server.srv Server.world_init) 2);
        Server.out := Server.out Server.world_init
                      ++ [audio_state_of (with_volume (Server.srv Server.world_init) 2)] |}).
Proof.
  apply (volume_message_passes_through Decimal.float Server.world_init
           {| Server.topic := "sensors/volume"; Server.payload := "2" |} 2).
  - reflexivity.
  - reflexivity.
Defined.

(** X16.  Every message whose payload parses, on any topic, known or not,
    makes the handler send exactly one [audio_state], last, carrying the
    globals as the message left them; a message whose payload does not
    parse sends nothing and prints the error. *)
Theorem every_parsed_message_is_broadcast
        (py_float : string -> result Q) (w : Server.world) (msg : Server.message) :
  exists sent,
    Server.out (snd (Server.on_message py_float msg w)) = Server.out w ++ sent
    /\ match py_float (Server.payload msg) with
       | Ok _ =>
           exists printed,
             sent = printed
                    ++ [audio_state_of (Server.srv (snd (Server.on_message py_float msg w)))]
             /\ forallb (fun o => negb (is_audio_state o)) printed = true
       | Raise e => sent = [Server.Print_error e]
       end.
Proof.
  destruct msg as [t p]. cbn [Server.payload].
  destruct (py_float p) as [v | e] eqn:Hp.
  - destruct (string_dec t "sensors/distance") as [-> | Ht].
    + fold (on_distance py_float p w).
      destruct (on_distance_cases py_float w p v Hp) as [dist [freq [pl [-> _]]]].
      cbn [after_distance Server.out Server.srv]. rewrite <- app_assoc.
      eexists. split; [reflexivity |].
      eexists. split; [reflexivity |]. destruct pl; reflexivity.
    + rewrite (on_parsed_other_message py_float w t p v Ht Hp).
      cbn [snd Server.out Server.srv]. cbv zeta. rewrite <- app_assoc.
      eexists. split; [reflexivity |].
      eexists. split; [reflexivity |].
      destruct (t =? "sensors/volume")%string;
        [| destruct (t =? "control/status")%string]; reflexivity.
  - rewrite (on_unparseable py_float w {| Server.topic := t; Server.payload := p |} e Hp).
    cbn [snd Server.out]. eexists. split; reflexivity.
Qed.

(** A number on a topic the server does not know is broadcast too. *)
Example unknown_topic_is_broadcast :
  Server.out (snd (Server.on_message Decimal.float
                     {| Server.topic := "sensors/other"; Server.payload := "7" |}
                     Server.world_init))
  = [Server.Emit_audio_state 0 0.5 0 false].
Proof. reflexivity. Qed.

(** X17.  From the bus to the sound card: after a distance message with a
    parsed payload [d], the next block of [CHUNK_SIZE] frames is the tone
    of [generate_tone] at the frequency of the mapping for [d] clamped to
    [2 .. 25] when [0 <= d <= 27], and a block of zeros otherwise. *)
Theorem distance_message_to_sound
        (py_float : string -> result Q) (w : Server.world) (p : string) (d : Q)
        (outdata : list R) :
  py_float p = Ok d ->
  List.length outdata = Z.to_nat AudioEngine.CHUNK_SIZE ->
  let engine := Server.audio (on_distance py_float p w) in
  (0 <= d <= 27 ->
   exists tone,
     AudioEngine.generate_tone
       (Server.frequency_of (Server.normalized_of (clamp_distance d)))
       (Server.current_volume (Server.srv w)) AudioEngine.CHUNK_DURATION = Ok tone
     /\ AudioEngine.audio_callback engine outdata AudioEngine.CHUNK_SIZE false
        = Ok (tone, []))
  /\ (~ (0 <= d <= 27) ->
      AudioEngine.audio_callback engine outdata AudioEngine.CHUNK_SIZE false
      = Ok (repeat 0%R (Z.to_nat AudioEngine.CHUNK_SIZE), [])).
Proof.
  intros Hp Hl engine. subst engine. split.
  - intros [H0 H27].
    assert (Hw : on_distance py_float p w
                 = after_distance w (clamp_distance d)
                     (Server.frequency_of (Server.normalized_of (clamp_distance d))) true
                 /\ 2 <= clamp_distance d <= 25).
    { unfold clamp_distance.
      destruct (Qle_bool 2 d && Qle_bool d 25) eqn:E1.
      - apply band_test in E1. split; [| exact E1].
        apply (on_distance_in_band py_float w p d Hp E1).
      - apply band_test_false in E1.
        destruct (Qle_bool 25 d) eqn:E2.
        + apply Qle_bool_iff in E2. split; [| lra].
          apply (on_distance_upper_band py_float w p d Hp E1).
          unfold Server.DISTANCE_MAX, Server.BUFFER_MAX. lra.
        + assert (H25 : d < 25).
          { apply Qnot_le_lt. intros H. apply Qle_bool_iff in H. congruence. }
          split; [| lra].
          apply (on_distance_lower_band py_float w p d Hp E1).
          * unfold Server.DISTANCE_MAX, Server.BUFFER_MAX. lra.
          * unfold Server.BUFFER_MIN, Server.DISTANCE_MIN. split; [lra |].
            destruct (Qlt_le_dec 2 d) as [Hgt | Hle]; [| exact Hle].
            exfalso. apply E1. lra. }
    destruct Hw as [Hw Hc]. rewrite Hw. cbn [after_distance Server.audio].
    pose proof (frequency_in_range (clamp_distance d) Hc) as [Hf _].
    apply (callback_plays_the_tone
             {| AudioEngine.current_frequency :=
                  Server.frequency_of (Server.normalized_of (clamp_distance d));
                AudioEngine.current_volume := Server.current_volume (Server.srv w);
                AudioEngine.is_playing := true |} outdata false).
    + reflexivity.
    + cbn [AudioEngine.current_frequency]. lra.
    + exact Hl.
  - intros Hout.
    rewrite (on_distance_outside py_float w p d Hp).
    + cbn [after_distance Server.audio].
      unfold AudioEngine.audio_callback, AudioEngine.audio_callback_with.
      rewrite callback_try_gate_off by (left; reflexivity).
      rewrite assign_column_same_length by (rewrite repeat_length; symmetry; exact Hl).
      reflexivity.
    + unfold Server.DISTANCE_MIN, Server.DISTANCE_MAX. lra.
    + unfold Server.DISTANCE_MAX, Server.BUFFER_MAX. lra.
    + unfold Server.BUFFER_MIN, Server.DISTANCE_MIN. lra.
Qed.

Lemma distance_message_to_sound_witness :
  let engine := Server.audio (on_distance Decimal.float "26.5" Server.world_init) in
  (0 <= 26.5 <= 27 ->
   exists tone,
     AudioEngine.generate_tone
       (Server.frequency_of (Server.normalized_of (clamp_distance 26.5)))
       (Server.current_volume (Server.srv Server.world_init))
       AudioEngine.CHUNK_DURATION = Ok tone
     /\ AudioEngine.audio_callback engine (repeat 0%R 2205) AudioEngine.CHUNK_SIZE false
        = Ok (tone, []))
  /\ (~ (0 <= 26.5 <= 27) ->
      AudioEngine.audio_callback engine (repeat 0%R 2205) AudioEngine.CHUNK_SIZE false
      = Ok (repeat 0%R (Z.to_nat AudioEngine.CHUNK_SIZE), [])).
Proof.
  apply (distance_message_to_sound Decimal.float Server.world_init "26.5" 26.5
           (repeat 0%R 2205)).
  - reflexivity.
  - rewrite repeat_length. reflexivity.
Defined.

(** * Properties of test_server.py *)

Section MockProperties.

Import TestServer.
Local Open Scope R_scope.

Lemma mock_mapping_in_band (distance : R) :
  2 <= distance <= 25 ->
  mock_mapping distance = (256 + (1024 - 256) * (1 - (distance - 2) / (25 - 2)), true).
Proof.
  intros [H1 H2]. unfold mock_mapping.
  destruct (Rle_dec 2 distance); [| lra]. destruct (Rle_dec distance 25); [| lra].
  reflexivity.
Qed.

Lemma mock_mapping_outside (distance : R) :
  distance < 2 \/ 25 < distance -> mock_mapping distance = (0, false).
Proof.
  intros H. unfold mock_mapping.
  destruct (Rle_dec 2 distance); [| reflexivity].
  destruct (Rle_dec distance 25); [lra | reflexivity].
Qed.

Lemma Q2R_integer (z : Z) : Q2R (inject_Z z) = IZR z.
Proof. unfold Q2R. simpl. field. Qed.

End MockProperties.

(** X18.  The mock signals stay in range: in every pass the clock advances
    by 0.05, the distance sent lies within [3, 27] and the volume within
    [0.5, 1]. *)
Theorem mock_signals_in_range (mock_time : R) :
  fst (TestServer.generate_mock_data_iteration mock_time) = (mock_time + 0.05)%R
  /\ (3 <= TestServer.distance (snd (TestServer.generate_mock_data_iteration mock_time))
      <= 27)%R
  /\ (0.5 <= TestServer.volume (snd (TestServer.generate_mock_data_iteration mock_time))
      <= 1)%R.
Proof.
  unfold TestServer.generate_mock_data_iteration.
  destruct (TestServer.mock_mapping _) as [f pl].
  cbn [fst snd TestServer.distance TestServer.volume].
  split; [reflexivity |].
  pose proof (SIN_bound ((mock_time + 0.05) * 3.0)) as [Hl Hu].
  pose proof (SIN_bound ((mock_time + 0.05) * 2.0)) as [Hl2 Hu2].
  pose proof (Rabs_pos (sin ((mock_time + 0.05) * 2.0))) as Hp.
  assert (Ha : (Rabs (sin ((mock_time + 0.05) * 2.0)) <= 1)%R) by (apply Rabs_le; lra).
  repeat split; lra.
Qed.

(** X19.  The mock is silent exactly when its distance exceeds 25; it
    never comes closer than 3 cm, so when it plays the frequency is that of
    the mapping and lies within [256, 1024 - 768/23], below [FREQ_MAX]; when
    it is silent the frequency is 0. *)
Theorem mock_gate_and_frequency (mock_time : R) :
  let sent := snd (TestServer.generate_mock_data_iteration mock_time) in
  (TestServer.playing sent = false <-> (25 < TestServer.distance sent)%R)
  /\ (TestServer.playing sent = true ->
      TestServer.frequency sent
      = (256 + (1024 - 256) * (1 - (TestServer.distance sent - 2) / (25 - 2)))%R
      /\ (256 <= TestServer.frequency sent <= 1024 - 768 / 23)%R)
  /\ (TestServer.playing sent = false -> TestServer.frequency sent = 0%R).
Proof.
  intros sent. subst sent.
  unfold TestServer.generate_mock_data_iteration.
  pose proof (SIN_bound ((mock_time + 0.05) * 3.0)) as [Hl Hu].
  set (d := (15 + 12 * sin ((mock_time + 0.05) * 3.0))%R) in *.
  assert (Hd3 : (3 <= d)%R) by (unfold d; lra).
  destruct (Rle_dec d 25) as [Hle | Hgt].
  - rewrite (mock_mapping_in_band d) by lra.
    cbn [snd TestServer.playing TestServer.frequency TestServer.distance].
    split; [split; [discriminate | lra] |].
    split; [| discriminate].
    intros _. split; [reflexivity |]. split; lra.
  - rewrite (mock_mapping_outside d) by lra.
    cbn [snd TestServer.playing TestServer.frequency TestServer.distance].
    split; [split; [lra | reflexivity] |].
    split; [discriminate | reflexivity].
Qed.

(** X20.  The mock's mapping is the server's only inside [2, 25].  For a
    parsed distance [d] there, both play the same frequency; for [d > 27] or
    [d < 0] both are silent; but in the tolerance bands [25 < d <= 27] and
    [0 <= d < 2] the server plays (256 or 1024) while the mock is silent. *)
Theorem mock_mapping_against_server
        (py_float : string -> result Q) (w : Server.world) (p : string) (d : Q) :
  py_float p = Ok d ->
  let s := Server.srv (on_distance py_float p w) in
  (2 <= d <= 25 ->
   TestServer.mock_mapping (Q2R d) = (Q2R (Server.current_frequency s), true)
   /\ Server.is_playing s = true)
  /\ (27 < d \/ d < 0 ->
      TestServer.mock_mapping (Q2R d) = (Q2R (Server.current_frequency s), false)
      /\ Server.is_playing s = false)
  /\ (25 < d <= 27 \/ 0 <= d < 2 ->
      TestServer.mock_mapping (Q2R d) = (0%R, false)
      /\ Server.is_playing s = true
      /\ 256 <= Server.current_frequency s).
Proof.
  intros Hp s. subst s.
  assert (H2 : Q2R 2 = 2%R) by apply (Q2R_integer 2).
  assert (H25 : Q2R 25 = 25%R) by apply (Q2R_integer 25).
  split; [| split].
  - intros [Hlo Hhi].
    rewrite (on_distance_in_band py_float w p d Hp) by
      (unfold Server.DISTANCE_MIN, Server.DISTANCE_MAX; lra).
    cbn [after_distance Server.srv Server.current_frequency Server.is_playing].
    split; [| reflexivity].
    apply Qle_Rle in Hlo, Hhi. rewrite H2 in Hlo. rewrite H25 in Hhi.
    rewrite mock_mapping_in_band by lra. f_equal.
    unfold Server.frequency_of, Server.normalized_of, Server.FREQ_MIN, Server.FREQ_MAX,
      Server.DISTANCE_MIN, Server.DISTANCE_MAX.
    rewrite Q2R_plus, Q2R_mult, !Q2R_minus, Q2R_div by discriminate.
    rewrite !Q2R_minus.
    assert (H256 : Q2R 256 = 256%R) by apply (Q2R_integer 256).
    assert (H1024 : Q2R 1024 = 1024%R) by apply (Q2R_integer 1024).
    rewrite H256, H1024, RMicromega.Q2R_1, H2, H25.
    reflexivity.
  - intros Hout.
    rewrite (on_distance_outside py_float w p d Hp) by
      (unfold Server.DISTANCE_MIN, Server.DISTANCE_MAX, Server.BUFFER_MIN,
         Server.BUFFER_MAX; lra).
    cbn [after_distance Server.srv Server.current_frequency Server.is_playing].
    split; [| reflexivity].
    rewrite RMicromega.Q2R_0. apply mock_mapping_outside.
    destruct Hout as [H | H]; apply Qlt_Rlt in H.
    + right. assert (H27 : Q2R 27 = 27%R) by apply (Q2R_integer 27).
      rewrite H27 in H. lra.
    + left. rewrite RMicromega.Q2R_0 in H. lra.
  - intros Hband.
    assert (Hm : TestServer.mock_mapping (Q2R d) = (0%R, false)).
    { apply mock_mapping_outside. destruct Hband as [[H _] | [_ H]]; apply Qlt_Rlt in H.
      - right. rewrite H25 in H. exact H.
      - left. rewrite H2 in H. exact H. }
    split; [exact Hm |].
    destruct Hband as [[Hlo Hhi] | [Hlo Hhi]].
    + rewrite (on_distance_upper_band py_float w p d Hp) by
        (unfold Server.DISTANCE_MIN, Server.DISTANCE_MAX, Server.BUFFER_MAX; lra).
      cbn [after_distance Server.srv Server.current_frequency Server.is_playing].
      split; [reflexivity |]. apply frequency_in_range. lra.
    + rewrite (on_distance_lower_band py_float w p d Hp) by
        (unfold Server.DISTANCE_MIN, Server.DISTANCE_MAX, Server.BUFFER_MIN,
           Server.BUFFER_MAX; lra).
      cbn [after_distance Server.srv Server.current_frequency Server.is_playing].
      split; [reflexivity |]. apply frequency_in_range. lra.
Qed.

Lemma mock_mapping_against_server_witness :
  let s := Server.srv (on_distance Decimal.float "26.5" Server.world_init) in
  (2 <= 26.5 <= 25 ->
   TestServer.mock_mapping (Q2R 26.5) = (Q2R (Server.current_frequency s), true)
   /\ Server.is_playing s = true)
  /\ (27 < 26.5 \/ 26.5 < 0 ->
      TestServer.mock_mapping (Q2R 26.5) = (Q2R (Server.current_frequency s), false)
      /\ Server.is_playing s = false)
  /\ (25 < 26.5 <= 27 \/ 0 <= 26.5 < 2 ->
      TestServer.mock_mapping (Q2R 26.5) = (0%R, false)
      /\ Server.is_playing s = true
      /\ 256 <= Server.current_frequency s).
Proof.
  apply (mock_mapping_against_server Decimal.float Server.world_init "26.5" 26.5).
  reflexivity.
Defined.

(** The product behind the 20 ms visualisation tone is 882 in binary64 as
    well. *)
Section Binary64Waveform.

Import PrimFloat Binary64.
Local Open Scope float_scope.

Example waveform_product_b64 : sample_product_b64 0.02 = 882.
Proof. reflexivity. Qed.

End Binary64Waveform.
